(** * Fraud-detection service: predict-and-persist pipeline

    A shallow embedding of
      - lib/models/transaction_record_model.py  (Transaction, TransactionRecord)
      - lib/models/api_model.py                 (request / response schemas)
      - lib/repositories/fraud_repository.py    (FraudRepository.add, list_all)
      - api/services/frauds_service.py          (FraudsService.predict, get_frauds)

    Python objects become records, Python exceptions become an error type
    threaded through a small state-and-error monad, the database table
    becomes an explicit list of rows together with the id sequence, and
    the trained model is a function from a data frame to either a raised
    exception or an array of labels. *)

From Stdlib Require Import ZArith List String Bool Lia Permutation Sorted PrimFloat.
From Stdlib Require Import DecimalString.
Import ListNotations.
Open Scope string_scope.
Open Scope list_scope.
Open Scope Z_scope.
Set Warnings "-inexact-float".

(** ** Python values and exceptions *)

(** The scalars that appear in a transaction payload and in a model's
    output array. *)
Inductive value : Type :=
| VInt (z : Z)
| VFloat (f : float)
| VStr (s : string)
| VBool (b : bool).

(** [numpy.nan], the marker pandas writes into a cell it has no data for. *)
Definition NaN : value := VFloat nan.

(** Python's [bool(v)]. *)
Definition truthy (v : value) : bool :=
  match v with
  | VInt z => negb (z =? 0)
  | VFloat f => negb (PrimFloat.eqb f 0%float)
  | VStr s => negb (String.eqb s "")
  | VBool b => b
  end.

(** The exceptions that can leave the service. *)
Inductive exn : Type :=
| IndexError                      (* [prediction_array[0]] on an empty array *)
| ModelError (msg : string)       (* whatever [model.predict] raises *)
| OperationalError                (* the database cannot be reached *)
| IntegrityError                  (* primary-key violation on insert *)
| ValidationError.                (* pydantic rejects a response field *)

Inductive result (A : Type) : Type :=
| Ok (a : A)
| Err (e : exn).
Arguments Ok {A} a.
Arguments Err {A} e.

Definition is_ok {A} (r : result A) : bool :=
  match r with Ok _ => true | Err _ => false end.

(** ** State-and-error monad *)

Definition M (S A : Type) : Type := S -> S * result A.

Definition ret {S A} (a : A) : M S A := fun s => (s, Ok a).
Definition raise {S A} (e : exn) : M S A := fun s => (s, Err e).
Definition bind {S A B} (m : M S A) (k : A -> M S B) : M S B :=
  fun s => match m s with
           | (s', Ok a) => k a s'
           | (s', Err e) => (s', Err e)
           end.

Notation "x <- m ;; k" := (bind m (fun x => k))
  (at level 61, m at next level, right associativity).

(** ** Python dictionaries

    A [dict] keeps its items in insertion order; assigning to a key that
    is already present keeps the key's position and replaces its value. *)
Module PyDict.
Section Dict.
Context {K V : Type}.
Variable K_eq_dec : forall x y : K, {x = y} + {x <> y}.

Definition t := list (K * V).

Fixpoint get (d : t) (k : K) : option V :=
  match d with
  | [] => None
  | (k', v) :: d' => if K_eq_dec k k' then Some v else get d' k
  end.

Fixpoint set (d : t) (k : K) (v : V) : t :=
  match d with
  | [] => [(k, v)]
  | (k', v') :: d' =>
      if K_eq_dec k k' then (k', v) :: d' else (k', v') :: set d' k v
  end.

Definition keys (d : t) : list K := map fst d.
End Dict.
End PyDict.

(** ** lib/models *)

(** [TransactionBase]: the nine fields shared by the ORM class and the
    payload schema. *)
Record Transaction : Type := mkTransaction {
  time_ind : Z;
  transac_type : string;
  amount : float;
  src_acc : string;
  src_bal : float;
  src_new_bal : float;
  dst_acc : string;
  dst_bal : float;
  dst_new_bal : float
}.

(** [txn.dict()]: field name to value, in declaration order. *)
Definition dict (txn : Transaction) : PyDict.t (K := string) (V := value) :=
  [ ("time_ind", VInt (time_ind txn));
    ("transac_type", VStr (transac_type txn));
    ("amount", VFloat (amount txn));
    ("src_acc", VStr (src_acc txn));
    ("src_bal", VFloat (src_bal txn));
    ("src_new_bal", VFloat (src_new_bal txn));
    ("dst_acc", VStr (dst_acc txn));
    ("dst_bal", VFloat (dst_bal txn));
    ("dst_new_bal", VFloat (dst_new_bal txn)) ].

(** [TransactionRecord]: the ORM object.  [id] and [predicted_at] default
    to [None]; the inherited fields are kept together in [base]. *)
Record TransactionRecord : Type := mkTransactionRecord {
  id : option Z;
  base : Transaction;
  is_fraud : bool;
  predicted_at : option Z
}.

(** The constructor call in [predict]: the record takes the nine fields of
    [txn.dict()] by keyword and the flag; [id] and [predicted_at] keep
    their default [None]. *)
Definition new_record (txn : Transaction) (predicted : bool) : TransactionRecord :=
  {| id := None; base := txn; is_fraud := predicted; predicted_at := None |}.

(** [Transaction.from_orm(rec)] *)
Definition from_orm (rec : TransactionRecord) : Transaction := base rec.

Record TransactionAPIRequest : Type := mkRequest {
  request_transaction : Transaction
}.

Record TransactionAPIResponse : Type := mkResponse {
  transaction : Transaction;
  predicted_fraud : bool
}.

(** [TransactionsAPIResponse.transactions : dict[int, TransactionAPIResponse]] *)
Record TransactionsAPIResponse : Type := mkResponses {
  transactions : PyDict.t (K := Z) (V := TransactionAPIResponse)
}.

(** ** pandas: [pd.DataFrame(records, columns=cols)]

    For a list of dicts with [columns] given, pandas selects, for each
    record, the requested labels in the requested order; a label the
    record does not have yields NaN in that cell. *)
Module pd.
Record DataFrame : Type := mkDataFrame {
  columns : list string;
  data : list (list value)
}.

Definition cell (record : PyDict.t) (col : string) : value :=
  match PyDict.get string_dec record col with
  | Some v => v
  | None => NaN
  end.

Definition row_of (cols : list string) (record : PyDict.t) : list value :=
  map (cell record) cols.

Definition DataFrame_of (records : list PyDict.t) (cols : list string)
  : DataFrame :=
  {| columns := cols; data := map (row_of cols) records |}.
End pd.

(** ** lib/repositories/fraud_repository.py *)

(** One row of the table [predicted_transactions]: [id] is the primary
    key and [predicted_at] is NOT NULL, so neither is optional here.
    Timestamps are microseconds since the epoch. *)
Record Row : Type := mkRow {
  row_id : Z;
  row_txn : Transaction;
  row_is_fraud : bool;
  row_predicted_at : Z
}.

(** The database: the table in insertion order and the last value handed
    out by the id sequence. *)
Record Store : Type := mkStore {
  table : list Row;
  id_seq : Z
}.

Definition empty_store : Store := {| table := []; id_seq := 0 |}.

(** What the outside world contributes to one repository call: whether
    the server answers the statement the call opens with (the INSERT and
    COMMIT of [add], the SELECT of [list_all]), whether it still answers
    the SELECT behind [session.refresh], and the value of [NOW()]. *)
Record DbEnv : Type := mkDbEnv {
  db_up : bool;
  refresh_up : bool;
  db_now : Z
}.

(** [session.refresh(record)] and the ORM's loading of a query result:
    the object carries the row's column values. *)
Definition load (r : Row) : TransactionRecord :=
  {| id := Some (row_id r);
     base := row_txn r;
     is_fraud := row_is_fraud r;
     predicted_at := Some (row_predicted_at r) |}.

Definition has_id (i : Z) (rows : list Row) : bool :=
  existsb (fun r => row_id r =? i) rows.

(** [ORDER BY predicted_at DESC]: [x] goes in front of the first row that
    is not newer than it, so rows with equal timestamps keep table order.
    The engine leaves the order among equal timestamps open; table order
    is one of the orders it may choose. *)
Fixpoint insert_desc (x : Row) (l : list Row) : list Row :=
  match l with
  | [] => [x]
  | y :: l' =>
      if row_predicted_at y <=? row_predicted_at x
      then x :: y :: l'
      else y :: insert_desc x l'
  end.

Fixpoint order_by_predicted_at_desc (l : list Row) : list Row :=
  match l with
  | [] => []
  | x :: l' => insert_desc x (order_by_predicted_at_desc l')
  end.

Module FraudRepository.

(** [add]: an unset [id] takes the next value of the sequence and an
    unset [predicted_at] takes the server default [NOW()]; a value set
    on the object is inserted as it is.  A failed insert is rolled back
    (the sequence is not) and its exception leaves the [with] block; so
    does the exception of a failed refresh, by which time the row has
    been committed.  The record is a new object, as [predict] builds it,
    whose column values the server accepts: an object that came out of
    the store and is added again, and an INSERT that the server refuses
    for its data, are not covered. *)
Definition add (env : DbEnv) (record : TransactionRecord)
  : M Store TransactionRecord :=
  fun st =>
    (* session.add(record); session.commit() *)
    if negb (db_up env) then (st, Err OperationalError) else
    let seq' := match id record with
                | Some _ => id_seq st
                | None => id_seq st + 1
                end in
    let i := match id record with
             | Some i => i
             | None => seq'
             end in
    let ts := match predicted_at record with
              | Some ts => ts
              | None => db_now env
              end in
    if has_id i (table st)
    then ({| table := table st; id_seq := seq' |}, Err IntegrityError)
    else
      let r := {| row_id := i; row_txn := base record;
                  row_is_fraud := is_fraud record;
                  row_predicted_at := ts |} in
      let st' := {| table := table st ++ [r]; id_seq := seq' |} in
      (* session.refresh(record); return record *)
      if negb (refresh_up env) then (st', Err OperationalError) else
      (st', Ok (load r)).

(** [list_all]: every row, newest first. *)
Definition list_all (env : DbEnv) : M Store (list TransactionRecord) :=
  fun st =>
    if negb (db_up env) then (st, Err OperationalError) else
    (st, Ok (map load (order_by_predicted_at_desc (table st)))).

End FraudRepository.

(** ** api/services/frauds_service.py *)

(** The state a request runs against: the database and, for the sake of
    counting them, the data frames the model has been called with. *)
Record World : Type := mkWorld {
  db : Store;
  model_calls : list pd.DataFrame
}.

Definition empty_world : World := {| db := empty_store; model_calls := [] |}.

(** A repository call made from the service. *)
Definition in_db {A} (m : M Store A) : M World A :=
  fun w => let '(st, r) := m (db w) in
           ({| db := st; model_calls := model_calls w |}, r).

(** [prediction_array[0]] *)
Definition getitem0 {S} (arr : list value) : M S value :=
  match arr with
  | [] => raise IndexError
  | v :: _ => ret v
  end.

(** pydantic's check of [dict[int, TransactionAPIResponse]]: the items are
    copied in order, and a key that is not an integer is rejected. *)
Fixpoint validate_transactions
  (d : PyDict.t (K := option Z) (V := TransactionAPIResponse))
  : result (PyDict.t (K := Z) (V := TransactionAPIResponse)) :=
  match d with
  | [] => Ok []
  | (Some i, v) :: d' =>
      match validate_transactions d' with
      | Ok d'' => Ok ((i, v) :: d'')
      | Err e => Err e
      end
  | (None, _) :: _ => Err ValidationError
  end.

Definition option_Z_eq_dec (x y : option Z) : {x = y} + {x <> y}.
Proof. decide equality. apply Z.eq_dec. Defined.

Module FraudsService.

(** The service object: the model is a black box that, given a data
    frame, raises or returns an array; the repository is the [db] of
    the world the methods run in.  The answer is a one-dimensional array
    of scalars, of any length; answers of other shapes are not covered. *)
Record t : Type := mkService {
  model : pd.DataFrame -> result (list value);
  feature_cols : list string
}.

(** [self.model.predict(df)] *)
Definition model_predict (self : t) (df : pd.DataFrame)
  : M World (list value) :=
  fun w => ({| db := db w; model_calls := model_calls w ++ [df] |},
            model self df).

(** [pd.DataFrame([txn.dict()], columns=self.feature_cols)] *)
Definition prepare_dataframe (self : t) (txn : Transaction) : pd.DataFrame :=
  pd.DataFrame_of [dict txn] (feature_cols self).

(** What [get_frauds] stores under [rec.id]. *)
Definition response_of (rec : TransactionRecord) : TransactionAPIResponse :=
  {| transaction := from_orm rec; predicted_fraud := is_fraud rec |}.

Definition predict (self : t) (env : DbEnv)
  (request : TransactionAPIRequest) : M World TransactionAPIResponse :=
  let txn := request_transaction request in
  (* 1) Prepare DataFrame *)
  let df := prepare_dataframe self txn in
  (* 2) Execute model *)
  prediction_array <- model_predict self df ;;
  v <- getitem0 prediction_array ;;
  let predicted := truthy v in
  (* 3) Persist prediction *)
  let db_rec := new_record txn predicted in
  _ <- in_db (FraudRepository.add env db_rec) ;;
  (* 4) Build response *)
  ret {| transaction := txn; predicted_fraud := predicted |}.

(** The loop of [get_frauds]: [result[rec.id] = response_obj]. *)
Definition collect (db_rows : list TransactionRecord)
  : PyDict.t (K := option Z) (V := TransactionAPIResponse) :=
  fold_left
    (fun result rec =>
       PyDict.set option_Z_eq_dec result (id rec) (response_of rec))
    db_rows [].

Definition get_frauds (env : DbEnv) : M World TransactionsAPIResponse :=
  db_rows <- in_db (FraudRepository.list_all env) ;;
  match validate_transactions (collect db_rows) with
  | Ok d => ret {| transactions := d |}
  | Err e => raise e
  end.

End FraudsService.

(** [N] calls of [predict], one after the other; the results are returned
    in call order. *)
Fixpoint predict_all (svc : FraudsService.t)
  (calls : list (DbEnv * TransactionAPIRequest)) (w : World)
  : World * list (result TransactionAPIResponse) :=
  match calls with
  | [] => (w, [])
  | (env, req) :: calls' =>
      let '(w1, r) := FraudsService.predict svc env req w in
      let '(w2, rs) := predict_all svc calls' w1 in
      (w2, r :: rs)
  end.


(** ** Properties of stores and listings *)

(** [a] may stand in front of [b] in a newest-first listing. *)
Definition not_older (a b : Row) : Prop :=
  row_predicted_at b <= row_predicted_at a.

(** The primary-key constraint on [id]. *)
Definition pk_ok (st : Store) : Prop :=
  NoDup (map row_id (table st)).

(** Every id in the table was handed out by the sequence, so the next
    sequence value is free. *)
Definition seq_ok (st : Store) : Prop :=
  Forall (fun r => row_id r <= id_seq st) (table st).

(** The row an insert of [new_record txn flag] creates. *)
Definition inserted_row (env : DbEnv) (st : Store) (txn : Transaction)
  (flag : bool) : Row :=
  {| row_id := id_seq st + 1; row_txn := txn; row_is_fraud := flag;
     row_predicted_at := db_now env |}.

(** The world after the model has been called with [df]. *)
Definition called (w : World) (df : pd.DataFrame) : World :=
  {| db := db w; model_calls := model_calls w ++ [df] |}.

(** ** Sample objects *)

(** The payload of the documented example response of POST /predict. *)
Definition sample_txn : Transaction :=
  {| time_ind := 42; transac_type := "TRANSFER"; amount := 1234.56;
     src_acc := "acc123"; src_bal := 5000; src_new_bal := 3765.44;
     dst_acc := "acc456"; dst_bal := 1000; dst_new_bal := 2234.56 |}.

Definition sample_request : TransactionAPIRequest :=
  {| request_transaction := sample_txn |}.

Definition numeric_cols : list string :=
  ["time_ind"; "amount"; "src_bal"; "src_new_bal"; "dst_bal"; "dst_new_bal"].

(** A database that answers every statement and whose clock reads [now]. *)
Definition up_at (now : Z) : DbEnv :=
  {| db_up := true; refresh_up := true; db_now := now |}.

(** A database that cannot be reached. *)
Definition down_at (now : Z) : DbEnv :=
  {| db_up := false; refresh_up := false; db_now := now |}.


(** A model that answers every frame with the array [arr]. *)
Definition constant_model (arr : list value) (cols : list string)
  : FraudsService.t :=
  {| FraudsService.model := fun _ => Ok arr;
     FraudsService.feature_cols := cols |}.

(** A model whose [predict] raises. *)
Definition raising_model (msg : string) (cols : list string)
  : FraudsService.t :=
  {| FraudsService.model := fun _ => Err (ModelError msg);
     FraudsService.feature_cols := cols |}.

(** A world with three stored predictions, the second one the newest. *)
Definition sample_world : World :=
  {| db := {| table := [ mkRow 1 sample_txn false 10;
                         mkRow 2 sample_txn true 30;
                         mkRow 3 sample_txn false 20 ];
              id_seq := 3 |};
     model_calls := [] |}.

(** The mapping [get_frauds] builds from the rows of [w]. *)
Definition listing_of (w : World) : TransactionsAPIResponse :=
  {| transactions :=
       map (fun r => (row_id r, FraudsService.response_of (load r)))
           (order_by_predicted_at_desc (table (db w))) |}.


(** ** api/controllers/frauds_controller.py, api/routes/frauds_route.py *)

(** What the handlers use of the web framework: the request's [client],
    which is [None] when the server passes no peer address, and the
    response object whose [status_code] a route assigns. *)
Module fastapi.

Record Address : Type := mkAddress {
  host : string;
  port : Z
}.

Record Request : Type := mkHttpRequest {
  client : option Address;
  url : string
}.

Record Response : Type := mkHttpResponse {
  status_code : option Z
}.

Definition HTTP_200_OK : Z := 200.

(** What leaves a handler: a value, or an exception, which is either the
    [AttributeError] of [None.host] or one raised further down.  The
    constructor tells where the exception arose, not only its Python
    class: an [AttributeError] raised inside the model arrives as
    [Propagated (ModelError _)]. *)
Inductive py_exn : Type :=
| AttributeError
| Propagated (e : exn).

Inductive reply (A : Type) : Type :=
| Returned (a : A)
| Raised (e : py_exn).
Arguments Returned {A} a.
Arguments Raised {A} e.

End fastapi.

Module FraudsController.

(** [predict]: the first log call reads [http_request.client.host]; then
    the service runs; the result is paired with the status 200. *)
Definition predict (service : FraudsService.t) (env : DbEnv)
  (request : TransactionAPIRequest) (http_request : fastapi.Request)
  : World -> World * fastapi.reply (TransactionAPIResponse * Z) :=
  fun w =>
    match fastapi.client http_request with
    | None => (w, fastapi.Raised fastapi.AttributeError)
    | Some _ =>
        (* Delegate to service *)
        match FraudsService.predict service env request w with
        | (w', Ok response) =>
            (w', fastapi.Returned (response, fastapi.HTTP_200_OK))
        | (w', Err e) => (w', fastapi.Raised (fastapi.Propagated e))
        end
    end.

(** [get_frauds]: the same shape, around [service.get_frauds()]. *)
Definition get_frauds (service : FraudsService.t) (env : DbEnv)
  (http_request : fastapi.Request)
  : World -> World * fastapi.reply (TransactionsAPIResponse * Z) :=
  fun w =>
    match fastapi.client http_request with
    | None => (w, fastapi.Raised fastapi.AttributeError)
    | Some _ =>
        (* Delegate to service *)
        match FraudsService.get_frauds env w with
        | (w', Ok response) =>
            (w', fastapi.Returned (response, fastapi.HTTP_200_OK))
        | (w', Err e) => (w', fastapi.Raised (fastapi.Propagated e))
        end
    end.

End FraudsController.

Module frauds_route.

(** POST /predict: the handler stores the controller's status code on the
    response object and returns the controller's result as the body. *)
Definition predict_fraudulent_transaction (controller : FraudsService.t)
  (env : DbEnv) (http_request : fastapi.Request)
  (request : TransactionAPIRequest) (response : fastapi.Response)
  : World -> World * fastapi.reply (fastapi.Response * TransactionAPIResponse) :=
  fun w =>
    match FraudsController.predict controller env request http_request w with
    | (w', fastapi.Returned (result, status_code)) =>
        (w', fastapi.Returned
               ({| fastapi.status_code := Some status_code |}, result))
    | (w', fastapi.Raised e) => (w', fastapi.Raised e)
    end.

(** GET /frauds *)
Definition get_fraudulent_transactions (controller : FraudsService.t)
  (env : DbEnv) (http_request : fastapi.Request) (response : fastapi.Response)
  : World -> World * fastapi.reply (fastapi.Response * TransactionsAPIResponse) :=
  fun w =>
    match FraudsController.get_frauds controller env http_request w with
    | (w', fastapi.Returned (result, status_code)) =>
        (w', fastapi.Returned
               ({| fastapi.status_code := Some status_code |}, result))
    | (w', fastapi.Raised e) => (w', fastapi.Raised e)
    end.

End frauds_route.

(** ** lib/config *)

Module config.

Record BasicSettings : Type := mkBasicSettings {
  basic_DB_NAME : string;
  basic_DB_HOST : string;
  basic_DB_PORT : Z;
  basic_MODEL_WEIGHT_PATH : string;
  basic_FEATURE_COLS : list string
}.

Record SecretSettings : Type := mkSecretSettings {
  DB_USER : string;
  DB_PASSWORD : string
}.

Record Settings : Type := mkSettings {
  basic : BasicSettings;
  secrets : SecretSettings
}.

(** How an f-string renders an [int]: decimal digits, a leading minus
    sign for a negative number. *)
Definition str_int (z : Z) : string :=
  DecimalString.NilZero.string_of_int (Z.to_int z).

Definition DATABASE_URL (self : Settings) : string :=
  String.append "postgresql://"
    (String.append (DB_USER (secrets self))
       (String.append ":"
          (String.append (DB_PASSWORD (secrets self))
             (String.append "@"
                (String.append (basic_DB_HOST (basic self))
                   (String.append ":"
                      (String.append (str_int (basic_DB_PORT (basic self)))
                         (String.append "/"
                            (basic_DB_NAME (basic self)))))))))).

Definition MODEL_WEIGHT_PATH (self : Settings) : string :=
  basic_MODEL_WEIGHT_PATH (basic self).

Definition FEATURE_COLS (self : Settings) : list string :=
  basic_FEATURE_COLS (basic self).

End config.

(** ** Further sample objects *)

Definition sample_client : fastapi.Request :=
  {| fastapi.client := Some {| fastapi.host := "10.0.0.7"; fastapi.port := 51234 |};
     fastapi.url := "http://localhost:8080/api/predict" |}.

(** A request that reached the application without a peer address. *)
Definition anonymous_request : fastapi.Request :=
  {| fastapi.client := None;
     fastapi.url := "http://localhost:8080/api/predict" |}.

Definition fresh_response : fastapi.Response :=
  {| fastapi.status_code := None |}.

(** A transaction that differs from [sample_txn] in the two account names. *)
Definition other_accounts_txn : Transaction :=
  {| time_ind := 42; transac_type := "TRANSFER"; amount := 1234.56;
     src_acc := "acc999"; src_bal := 5000; src_new_bal := 3765.44;
     dst_acc := "acc000"; dst_bal := 1000; dst_new_bal := 2234.56 |}.

(** [Ok]'s payload mapped through [f]. *)
Definition result_map {A B} (f : A -> B) (r : result A) : result B :=
  match r with
  | Ok a => Ok (f a)
  | Err e => Err e
  end.


(** * Facts about dictionaries *)

Section DictFacts.
Context {K V : Type}.
Variable K_eq_dec : forall x y : K, {x = y} + {x <> y}.

Let get := PyDict.get (V := V) K_eq_dec.
Let set := PyDict.set (V := V) K_eq_dec.

Lemma get_None (d : list (K * V)) (k : K) :
  get d k = None <-> ~ In k (PyDict.keys d).
Proof.
  induction d as [|[k' v'] d IH]; simpl.
  - tauto.
  - destruct (K_eq_dec k k') as [->|Hne].
    + split; [discriminate | intros H; exfalso; apply H; now left].
    + rewrite IH. split.
      * intros H [E|HIn]; [now apply Hne | now apply H].
      * intros H HIn. apply H. now right.
Qed.

Lemma get_In (d : list (K * V)) (k : K) (v : V) :
  NoDup (PyDict.keys d) -> (get d k = Some v <-> In (k, v) d).
Proof.
  induction d as [|[k' v'] d IH]; simpl; intros ND.
  - split; [discriminate | tauto].
  - inversion ND as [|? ? Hnotin ND']; subst.
    destruct (K_eq_dec k k') as [->|Hne].
    + split.
      * intros E. injection E as ->. now left.
      * intros [E|HIn]; [now injection E as -> |].
        exfalso. apply Hnotin. change k' with (fst (k', v)).
        now apply in_map.
    + rewrite (IH ND'). split.
      * intros HIn. now right.
      * intros [E|HIn]; [injection E as -> _; now destruct Hne | exact HIn].
Qed.

Lemma get_perm (d d' : list (K * V)) (k : K) :
  NoDup (PyDict.keys d) -> Permutation d d' -> get d k = get d' k.
Proof.
  intros ND HP.
  assert (ND' : NoDup (PyDict.keys d')).
  { eapply Permutation_NoDup; [|exact ND]. now apply Permutation_map. }
  destruct (get d k) as [v|] eqn:E.
  - symmetry. apply (get_In d' k v ND').
    eapply Permutation_in; [exact HP|]. now apply (get_In d k v ND).
  - symmetry. apply get_None. apply get_None in E.
    intros HIn. apply E. unfold PyDict.keys in *.
    eapply Permutation_in; [|exact HIn].
    apply Permutation_map. now apply Permutation_sym.
Qed.

Lemma set_fresh (d : list (K * V)) (k : K) (v : V) :
  ~ In k (PyDict.keys d) -> set d k v = d ++ [(k, v)].
Proof.
  induction d as [|[k' v'] d IH]; simpl; intros Hnotin.
  - reflexivity.
  - destruct (K_eq_dec k k') as [->|Hne].
    + exfalso. apply Hnotin. now left.
    + f_equal. apply IH. intros HIn. apply Hnotin. now right.
Qed.

(** Filling a dictionary from items with pairwise distinct, fresh keys
    appends them in the order they are visited. *)
Lemma fold_set_fresh {A : Type} (key : A -> K) (val : A -> V) (l : list A) :
  forall d : list (K * V),
    NoDup (PyDict.keys d ++ map key l) ->
    fold_left (fun acc a => set acc (key a) (val a)) l d
    = d ++ map (fun a => (key a, val a)) l.
Proof.
  induction l as [|a l IH]; simpl; intros d ND.
  - now rewrite app_nil_r.
  - assert (Hfresh : ~ In (key a) (PyDict.keys d)).
    { apply NoDup_remove_2 in ND. intros HIn. apply ND.
      apply in_or_app. now left. }
    rewrite (set_fresh d (key a) (val a) Hfresh).
    rewrite IH.
    + now rewrite <- app_assoc.
    + unfold PyDict.keys in *. rewrite map_app. simpl.
      rewrite <- app_assoc. exact ND.
Qed.

End DictFacts.

(** * Facts about [ORDER BY predicted_at DESC] *)

Lemma insert_desc_perm (x : Row) (l : list Row) :
  Permutation (insert_desc x l) (x :: l).
Proof.
  induction l as [|y l IH]; simpl.
  - apply Permutation_refl.
  - destruct (row_predicted_at y <=? row_predicted_at x).
    + apply Permutation_refl.
    + eapply perm_trans; [apply perm_skip, IH | apply perm_swap].
Qed.

Lemma order_by_perm (l : list Row) :
  Permutation (order_by_predicted_at_desc l) l.
Proof.
  induction l as [|x l IH]; simpl.
  - constructor.
  - eapply perm_trans; [apply insert_desc_perm | now apply perm_skip].
Qed.

Lemma insert_desc_sorted (x : Row) (l : list Row) :
  StronglySorted not_older l -> StronglySorted not_older (insert_desc x l).
Proof.
  induction l as [|y l IH]; simpl; intros HS.
  - constructor; constructor.
  - inversion HS as [|? ? HS' HF]; subst.
    destruct (row_predicted_at y <=? row_predicted_at x) eqn:E.
    + apply Z.leb_le in E. constructor; [exact HS|].
      constructor; [exact E|].
      eapply Forall_impl; [|exact HF].
      intros b Hb. unfold not_older in *. lia.
    + apply Z.leb_gt in E. constructor; [now apply IH|].
      eapply Permutation_Forall.
      * apply Permutation_sym, insert_desc_perm.
      * constructor; [unfold not_older; lia | exact HF].
Qed.

Lemma order_by_sorted (l : list Row) :
  StronglySorted not_older (order_by_predicted_at_desc l).
Proof.
  induction l as [|x l IH]; simpl.
  - constructor.
  - now apply insert_desc_sorted.
Qed.

Lemma order_by_length (l : list Row) :
  List.length (order_by_predicted_at_desc l) = List.length l.
Proof. apply Permutation_length, order_by_perm. Qed.

(** * Facts about the repository *)

Lemma has_id_false (i : Z) (rows : list Row) :
  has_id i rows = false <-> ~ In i (map row_id rows).
Proof.
  unfold has_id. induction rows as [|r rows IH]; simpl.
  - tauto.
  - rewrite orb_false_iff, IH, Z.eqb_neq. split.
    + intros [Hne Hnotin] [E|HIn]; [now apply Hne | now apply Hnotin].
    + intros H. split; [intros E | intros HIn]; apply H; auto.
Qed.

Lemma seq_ok_fresh (st : Store) :
  seq_ok st -> has_id (id_seq st + 1) (table st) = false.
Proof.
  unfold seq_ok. intros H. apply has_id_false. intros HIn.
  apply in_map_iff in HIn. destruct HIn as [r [E Hr]].
  rewrite Forall_forall in H. specialize (H r Hr). lia.
Qed.

(** What [add] does to the table, whatever record it is given: a returned
    record is the row just appended; an exception leaves the table alone,
    unless it is the refresh that failed. *)
Lemma add_table (env : DbEnv) (rec : TransactionRecord) (st st' : Store)
  (res : result TransactionRecord) :
  FraudRepository.add env rec st = (st', res) ->
  (exists r, table st' = table st ++ [r]
             /\ ~ In (row_id r) (map row_id (table st))
             /\ row_txn r = base rec /\ row_is_fraud r = is_fraud rec
             /\ match res with
                | Ok rec' => rec' = load r
                | Err e => refresh_up env = false /\ e = OperationalError
                end)
  \/ (table st' = table st /\ is_ok res = false).
Proof.
  unfold FraudRepository.add.
  destruct (db_up env); simpl.
  - destruct (has_id _ (table st)) eqn:Hid.
    + intros E; injection E as <- <-. right. split; reflexivity.
    + apply has_id_false in Hid.
      destruct (refresh_up env); simpl; intros E; injection E as <- <-;
        left; eexists; simpl; repeat split; exact Hid.
  - intros E; injection E as <- <-. right. split; reflexivity.
Qed.

Lemma add_pk_ok (env : DbEnv) (rec : TransactionRecord) (st st' : Store)
  (res : result TransactionRecord) :
  pk_ok st -> FraudRepository.add env rec st = (st', res) -> pk_ok st'.
Proof.
  unfold pk_ok. intros ND E. apply add_table in E.
  destruct E as [[r [-> [Hfresh _]]] | [-> _]].
  - rewrite map_app. simpl.
    eapply Permutation_NoDup; [apply Permutation_cons_append|].
    now constructor.
  - exact ND.
Qed.

(** [add] on a record built by [predict], case by case. *)
Lemma add_new_record (env : DbEnv) (st : Store) (txn : Transaction)
  (flag : bool) :
  FraudRepository.add env (new_record txn flag) st =
  if negb (db_up env) then (st, Err OperationalError)
  else if has_id (id_seq st + 1) (table st)
       then ({| table := table st; id_seq := id_seq st + 1 |},
             Err IntegrityError)
       else ({| table := table st ++ [inserted_row env st txn flag];
                id_seq := id_seq st + 1 |},
             if negb (refresh_up env) then Err OperationalError
             else Ok (load (inserted_row env st txn flag))).
Proof.
  unfold FraudRepository.add. simpl.
  destruct (negb (db_up env)); [reflexivity|].
  destruct (has_id _ _); [reflexivity|].
  destruct (negb (refresh_up env)); reflexivity.
Qed.

Lemma add_new_record_seq_ok (env : DbEnv) (st st' : Store)
  (txn : Transaction) (flag : bool) (res : result TransactionRecord) :
  seq_ok st ->
  FraudRepository.add env (new_record txn flag) st = (st', res) ->
  seq_ok st'.
Proof.
  unfold seq_ok. intros H. rewrite add_new_record.
  destruct (db_up env); simpl.
  - rewrite (seq_ok_fresh st H). intros E; injection E as <- _. simpl.
    apply Forall_app. split.
    + eapply Forall_impl; [|exact H]. simpl. intros; lia.
    + constructor; [simpl; lia | constructor].
  - intros E; injection E as <- _. exact H.
Qed.

(** * Facts about the service *)

(** [predict], case by case on what the model and the store answer. *)
Lemma predict_cases (svc : FraudsService.t) (env : DbEnv)
  (req : TransactionAPIRequest) (w : World) :
  let txn := request_transaction req in
  let df := FraudsService.prepare_dataframe svc txn in
  FraudsService.predict svc env req w =
  match FraudsService.model svc df with
  | Err e => (called w df, Err e)
  | Ok [] => (called w df, Err IndexError)
  | Ok (v :: _) =>
      match FraudRepository.add env (new_record txn (truthy v)) (db w) with
      | (st, Ok _) =>
          ({| db := st; model_calls := model_calls w ++ [df] |},
           Ok {| transaction := txn; predicted_fraud := truthy v |})
      | (st, Err e) =>
          ({| db := st; model_calls := model_calls w ++ [df] |}, Err e)
      end
  end.
Proof.
  intros txn df.
  unfold FraudsService.predict, bind, FraudsService.model_predict, called.
  fold txn. fold df.
  destruct (FraudsService.model svc df) as [[|v arr]|e]; try reflexivity.
  unfold getitem0, ret, in_db. simpl.
  destruct (FraudRepository.add env (new_record txn (truthy v)) (db w))
    as [st [rec'|e]]; reflexivity.
Qed.

Lemma predict_model_calls (svc : FraudsService.t) (env : DbEnv)
  (req : TransactionAPIRequest) (w : World) :
  model_calls (fst (FraudsService.predict svc env req w))
  = model_calls w
    ++ [FraudsService.prepare_dataframe svc (request_transaction req)].
Proof.
  rewrite predict_cases.
  destruct (FraudsService.model svc _) as [[|v arr]|e]; try reflexivity.
  destruct (FraudRepository.add _ _ _) as [st [rec'|e]]; reflexivity.
Qed.

(** The table after one [predict]: the primary key stays intact, and a
    successful call has added exactly one row. *)
Lemma predict_table (svc : FraudsService.t) (env : DbEnv)
  (req : TransactionAPIRequest) (w w' : World)
  (res : result TransactionAPIResponse) :
  FraudsService.predict svc env req w = (w', res) ->
  (pk_ok (db w) -> pk_ok (db w')) /\
  (is_ok res = true ->
   List.length (table (db w')) = S (List.length (table (db w)))).
Proof.
  rewrite predict_cases.
  destruct (FraudsService.model svc _) as [[|v arr]|e].
  - intros E; injection E as <- <-. simpl. split; [tauto | discriminate].
  - destruct (FraudRepository.add _ _ _) as [st r] eqn:Ha.
    pose proof (add_table _ _ _ _ _ Ha) as Ht.
    pose proof (fun H => add_pk_ok _ _ _ _ _ H Ha) as Hpk.
    destruct r as [rec'|e]; intros E; injection E as <- <-; simpl.
    + split; [exact Hpk | intros _].
      destruct Ht as [[r [-> _]] | [_ Hno]]; [|discriminate].
      rewrite length_app. simpl. lia.
    + split; [exact Hpk | discriminate].
  - intros E; injection E as <- <-. simpl. split; [tauto | discriminate].
Qed.

Lemma predict_all_table (svc : FraudsService.t)
  (calls : list (DbEnv * TransactionAPIRequest)) :
  forall (w w' : World) (rs : list (result TransactionAPIResponse)),
    predict_all svc calls w = (w', rs) ->
    (pk_ok (db w) -> pk_ok (db w')) /\
    List.length rs = List.length calls /\
    (forallb is_ok rs = true ->
     List.length (table (db w'))
     = (List.length (table (db w)) + List.length calls)%nat).
Proof.
  induction calls as [|[env req] calls IH]; simpl; intros w w' rs E.
  - injection E as <- <-. simpl. repeat split; [tauto | intros _; lia].
  - destruct (FraudsService.predict svc env req w) as [w1 r] eqn:E1.
    destruct (predict_all svc calls w1) as [w2 rs'] eqn:E2.
    injection E as <- <-.
    destruct (predict_table _ _ _ _ _ _ E1) as [Hpk1 Hlen1].
    destruct (IH _ _ _ E2) as [Hpk2 [Hrs Hlen2]].
    repeat split.
    + tauto.
    + simpl. now rewrite Hrs.
    + simpl. intros Hok. apply andb_true_iff in Hok. destruct Hok as [Hr Hok].
      rewrite (Hlen2 Hok), (Hlen1 Hr). lia.
Qed.

Lemma validate_loaded (val : Row -> TransactionAPIResponse) (rows : list Row) :
  validate_transactions (map (fun r => (Some (row_id r), val r)) rows)
  = Ok (map (fun r => (row_id r, val r)) rows).
Proof.
  induction rows as [|r rows IH]; simpl.
  - reflexivity.
  - now rewrite IH.
Qed.

Lemma NoDup_map_Some (l : list Z) : NoDup l -> NoDup (map Some l).
Proof.
  induction 1 as [|x l Hnotin ND IH]; simpl; constructor; [|exact IH].
  intros HIn. apply in_map_iff in HIn. destruct HIn as [y [E Hy]].
  injection E as ->. now apply Hnotin.
Qed.

(** With distinct ids the loop of [get_frauds] yields one item per
    record, in listing order. *)
Lemma collect_loaded (rows : list Row) :
  NoDup (map row_id rows) ->
  FraudsService.collect (map load rows)
  = map (fun r => (Some (row_id r), FraudsService.response_of (load r))) rows.
Proof.
  intros ND. unfold FraudsService.collect.
  rewrite (fold_set_fresh option_Z_eq_dec id FraudsService.response_of).
  - simpl. rewrite map_map. reflexivity.
  - simpl. rewrite map_map. simpl.
    rewrite <- (map_map row_id Some). now apply NoDup_map_Some.
Qed.

Lemma get_frauds_down (env : DbEnv) (w : World) :
  db_up env = false ->
  FraudsService.get_frauds env w = (w, Err OperationalError).
Proof.
  intros Hdown. destruct w as [st calls].
  unfold FraudsService.get_frauds, bind, in_db, FraudRepository.list_all.
  simpl. now rewrite Hdown.
Qed.

(** [get_frauds] never writes and looks at the outside world only to see
    whether the database answers. *)
Lemma get_frauds_up (env : DbEnv) (w : World) :
  db_up env = true ->
  FraudsService.get_frauds env w =
  (w, match validate_transactions
              (FraudsService.collect
                 (map load (order_by_predicted_at_desc (table (db w))))) with
      | Ok d => Ok {| transactions := d |}
      | Err e => Err e
      end).
Proof.
  intros Hup. destruct w as [st calls].
  unfold FraudsService.get_frauds, bind, in_db, FraudRepository.list_all.
  simpl. rewrite Hup. simpl.
  destruct (validate_transactions _); reflexivity.
Qed.

Lemma get_frauds_ok (env : DbEnv) (w : World) :
  db_up env = true -> pk_ok (db w) ->
  FraudsService.get_frauds env w =
  (w, Ok {| transactions :=
              map (fun r => (row_id r, FraudsService.response_of (load r)))
                  (order_by_predicted_at_desc (table (db w))) |}).
Proof.
  intros Hup Hpk. rewrite (get_frauds_up env w Hup).
  rewrite collect_loaded.
  - now rewrite validate_loaded.
  - eapply Permutation_NoDup; [|exact Hpk].
    apply Permutation_map, Permutation_sym, order_by_perm.
Qed.

(** Whatever order the engine picks among rows with equal timestamps, the
    collected dictionary answers every lookup the same way. *)
Lemma collect_listing_order_irrelevant (l1 l2 : list Row) (k : option Z) :
  NoDup (map row_id l1) -> Permutation l1 l2 ->
  PyDict.get option_Z_eq_dec (FraudsService.collect (map load l1)) k
  = PyDict.get option_Z_eq_dec (FraudsService.collect (map load l2)) k.
Proof.
  intros ND HP.
  assert (ND2 : NoDup (map row_id l2)).
  { eapply Permutation_NoDup; [|exact ND]. now apply Permutation_map. }
  rewrite !collect_loaded by assumption.
  apply get_perm.
  - unfold PyDict.keys. rewrite map_map. simpl.
    rewrite <- (map_map row_id Some). now apply NoDup_map_Some.
  - now apply Permutation_map.
Qed.

(** * The pipeline: predict and persist *)

(** C1. A successful [predict] on transaction T appends exactly one row to
    the table; the row's transaction fields are T's and its flag is the
    label; the response is T paired with that label, the truth value of
    the first element of the model's answer. *)
Theorem predict_persists_one_record (svc : FraudsService.t) (env : DbEnv)
  (req : TransactionAPIRequest) (w w' : World)
  (resp : TransactionAPIResponse) :
  FraudsService.predict svc env req w = (w', Ok resp) ->
  exists (v : value) (rest : list value) (r : Row),
    FraudsService.model svc
      (FraudsService.prepare_dataframe svc (request_transaction req))
    = Ok (v :: rest)
    /\ table (db w') = table (db w) ++ [r]
    /\ row_txn r = request_transaction req
    /\ row_is_fraud r = truthy v
    /\ resp = {| transaction := request_transaction req;
                 predicted_fraud := truthy v |}.
Proof.
  rewrite predict_cases.
  destruct (FraudsService.model svc _) as [[|v arr]|e]; try discriminate.
  destruct (FraudRepository.add _ _ _) as [st [rec'|e]] eqn:Ha;
    try discriminate.
  intros E. injection E as <- <-.
  apply add_table in Ha.
  destruct Ha as [[r [Ht [_ [Htxn [Hflag _]]]]] | [_ Hno]]; [|discriminate].
  exists v, arr, r. simpl in *. auto.
Qed.

Lemma predict_persists_one_record_witness :
  exists (v : value) (rest : list value) (r : Row),
    FraudsService.model (constant_model [VInt 0] numeric_cols)
      (FraudsService.prepare_dataframe (constant_model [VInt 0] numeric_cols)
         (request_transaction sample_request))
    = Ok (v :: rest)
    /\ table (db {| db := {| table := [inserted_row (up_at 7) empty_store
                                          sample_txn false];
                             id_seq := 1 |};
                    model_calls :=
                      [FraudsService.prepare_dataframe
                         (constant_model [VInt 0] numeric_cols) sample_txn] |})
       = table (db empty_world) ++ [r]
    /\ row_txn r = request_transaction sample_request
    /\ row_is_fraud r = truthy v
    /\ {| transaction := sample_txn; predicted_fraud := false |}
       = {| transaction := request_transaction sample_request;
            predicted_fraud := truthy v |}.
Proof.
  apply (predict_persists_one_record
           (constant_model [VInt 0] numeric_cols) (up_at 7) sample_request
           empty_world).
  reflexivity.
Defined.




(** C5. The record [predict] hands to [add] carries no [id] and no
    [predicted_at]; when the insert succeeds the store fills both in, from
    its sequence and its clock, and the record [add] returns is the row
    that is now last in the table. *)
Theorem add_populates_generated_fields (env : DbEnv) (st st' : Store)
  (txn : Transaction) (flag : bool) (rec' : TransactionRecord) :
  FraudRepository.add env (new_record txn flag) st = (st', Ok rec') ->
  id (new_record txn flag) = None
  /\ predicted_at (new_record txn flag) = None
  /\ id rec' = Some (id_seq st + 1)
  /\ predicted_at rec' = Some (db_now env)
  /\ base rec' = txn /\ is_fraud rec' = flag
  /\ exists r, table st' = table st ++ [r] /\ rec' = load r.
Proof.
  rewrite add_new_record.
  destruct (negb (db_up env)); try discriminate.
  destruct (has_id _ _); try discriminate.
  destruct (negb (refresh_up env)); try discriminate.
  intros E. injection E as <- <-. simpl.
  repeat split. eexists. split; reflexivity.
Qed.

Lemma add_populates_generated_fields_witness :
  id (new_record sample_txn true) = None
  /\ predicted_at (new_record sample_txn true) = None
  /\ id (load (inserted_row (up_at 99) empty_store sample_txn true))
     = Some (id_seq empty_store + 1)
  /\ predicted_at (load (inserted_row (up_at 99) empty_store sample_txn true))
     = Some (db_now (up_at 99))
  /\ base (load (inserted_row (up_at 99) empty_store sample_txn true))
     = sample_txn
  /\ is_fraud (load (inserted_row (up_at 99) empty_store sample_txn true))
     = true
  /\ exists r,
       table {| table := [inserted_row (up_at 99) empty_store sample_txn true];
                id_seq := 1 |}
       = table empty_store ++ [r]
       /\ load (inserted_row (up_at 99) empty_store sample_txn true) = load r.
Proof.
  apply (add_populates_generated_fields (up_at 99) empty_store).
  reflexivity.
Defined.

(** * Retrieval *)

(** C3. With the database reachable, [list_all] returns the loaded rows of
    a permutation of the table that is sorted by [predicted_at], newest
    first; and three records inserted into the empty store at times
    t1 < t2 < t3 come back in the order t3, t2, t1. *)
Theorem list_all_newest_first (env : DbEnv) (st : Store) :
  db_up env = true ->
  (exists rows,
     FraudRepository.list_all env st = (st, Ok (map load rows))
     /\ Permutation rows (table st)
     /\ StronglySorted not_older rows)
  /\ forall (e1 e2 e3 : DbEnv) (x1 x2 x3 : Transaction) (f1 f2 f3 : bool),
       db_up e1 = true -> db_up e2 = true -> db_up e3 = true ->
       db_now e1 < db_now e2 -> db_now e2 < db_now e3 ->
       let s1 := fst (FraudRepository.add e1 (new_record x1 f1) empty_store) in
       let s2 := fst (FraudRepository.add e2 (new_record x2 f2) s1) in
       let s3 := fst (FraudRepository.add e3 (new_record x3 f3) s2) in
       FraudRepository.list_all env s3
       = (s3, Ok [ load (mkRow 3 x3 f3 (db_now e3));
                   load (mkRow 2 x2 f2 (db_now e2));
                   load (mkRow 1 x1 f1 (db_now e1)) ]).
Proof.
  intros Hup. split.
  - exists (order_by_predicted_at_desc (table st)).
    unfold FraudRepository.list_all. rewrite Hup. simpl.
    split; [reflexivity|]. split; [apply order_by_perm | apply order_by_sorted].
  - intros e1 e2 e3 x1 x2 x3 f1 f2 f3 H1 H2 H3 H12 H23.
    destruct e1 as [u1 ru1 t1], e2 as [u2 ru2 t2], e3 as [u3 ru3 t3].
    simpl in *. subst u1 u2 u3.
    unfold FraudRepository.add, FraudRepository.list_all.
    rewrite Hup.
    assert (E32 : (t3 <=? t2) = false) by (apply Z.leb_gt; lia).
    assert (E31 : (t3 <=? t1) = false) by (apply Z.leb_gt; lia).
    assert (E21 : (t2 <=? t1) = false) by (apply Z.leb_gt; lia).
    destruct ru1, ru2, ru3; cbn; rewrite E32; cbn; rewrite E31, E21;
      reflexivity.
Qed.

Lemma list_all_newest_first_witness :
  (exists rows,
     FraudRepository.list_all (up_at 50)
       {| table := [mkRow 1 sample_txn false 10; mkRow 2 sample_txn true 30;
                    mkRow 3 sample_txn false 20];
          id_seq := 3 |}
     = ({| table := [mkRow 1 sample_txn false 10; mkRow 2 sample_txn true 30;
                     mkRow 3 sample_txn false 20];
           id_seq := 3 |}, Ok (map load rows))
     /\ Permutation rows
          [mkRow 1 sample_txn false 10; mkRow 2 sample_txn true 30;
           mkRow 3 sample_txn false 20]
     /\ StronglySorted not_older rows)
  /\ FraudRepository.list_all (up_at 50)
       (fst (FraudRepository.add (up_at 30) (new_record sample_txn true)
          (fst (FraudRepository.add (up_at 20) (new_record sample_txn false)
             (fst (FraudRepository.add (up_at 10) (new_record sample_txn true)
                empty_store))))))
     = (fst (FraudRepository.add (up_at 30) (new_record sample_txn true)
          (fst (FraudRepository.add (up_at 20) (new_record sample_txn false)
             (fst (FraudRepository.add (up_at 10) (new_record sample_txn true)
                empty_store))))),
        Ok [ load (mkRow 3 sample_txn true 30);
             load (mkRow 2 sample_txn false 20);
             load (mkRow 1 sample_txn true 10) ]).
Proof.
  pose proof (list_all_newest_first (up_at 50)
    {| table := [mkRow 1 sample_txn false 10; mkRow 2 sample_txn true 30;
                 mkRow 3 sample_txn false 20];
       id_seq := 3 |} eq_refl) as [Hfirst Hthree].
  split.
  - exact Hfirst.
  - apply (Hthree (up_at 10) (up_at 20) (up_at 30)); simpl;
      reflexivity || lia.
Defined.

(** C6. After N calls of [predict] from the empty store, all of them
    successful, [get_frauds] returns a mapping with exactly N items whose
    keys are pairwise distinct and are the ids of the stored rows. *)
Theorem get_frauds_after_n_predicts (svc : FraudsService.t)
  (calls : list (DbEnv * TransactionAPIRequest)) (w' : World)
  (rs : list (result TransactionAPIResponse)) (env : DbEnv) :
  predict_all svc calls empty_world = (w', rs) ->
  forallb is_ok rs = true ->
  db_up env = true ->
  exists resp,
    FraudsService.get_frauds env w' = (w', Ok resp)
    /\ List.length (transactions resp) = List.length calls
    /\ NoDup (PyDict.keys (transactions resp))
    /\ Permutation (PyDict.keys (transactions resp))
         (map row_id (table (db w'))).
Proof.
  intros Hrun Hok Hup.
  destruct (predict_all_table _ _ _ _ _ Hrun) as [Hpk [Hrs Hlen]].
  assert (Hpk' : pk_ok (db w')) by (apply Hpk; constructor).
  assert (Hkeys : forall rows : list Row,
             PyDict.keys
               (map (fun r => (row_id r, FraudsService.response_of (load r)))
                  rows)
             = map row_id rows).
  { intros rows. unfold PyDict.keys. now rewrite map_map. }
  eexists. split; [apply (get_frauds_ok env w' Hup Hpk')|]. simpl.
  rewrite Hkeys. repeat split.
  - rewrite length_map, order_by_length, (Hlen Hok). reflexivity.
  - eapply Permutation_NoDup; [|exact Hpk'].
    apply Permutation_map, Permutation_sym, order_by_perm.
  - apply Permutation_map, order_by_perm.
Qed.

Lemma get_frauds_after_n_predicts_witness :
  exists resp,
    FraudsService.get_frauds (up_at 30)
      (fst (predict_all (constant_model [VInt 1] numeric_cols)
              [(up_at 10, sample_request); (up_at 20, sample_request)]
              empty_world))
    = (fst (predict_all (constant_model [VInt 1] numeric_cols)
              [(up_at 10, sample_request); (up_at 20, sample_request)]
              empty_world), Ok resp)
    /\ List.length (transactions resp)
       = List.length [(up_at 10, sample_request); (up_at 20, sample_request)]
    /\ NoDup (PyDict.keys (transactions resp))
    /\ Permutation (PyDict.keys (transactions resp))
         (map row_id
            (table (db (fst (predict_all
                               (constant_model [VInt 1] numeric_cols)
                               [(up_at 10, sample_request);
                                (up_at 20, sample_request)]
                               empty_world))))).
Proof.
  apply (get_frauds_after_n_predicts (constant_model [VInt 1] numeric_cols)
           [(up_at 10, sample_request); (up_at 20, sample_request)]
           _ (snd (predict_all (constant_model [VInt 1] numeric_cols)
                     [(up_at 10, sample_request); (up_at 20, sample_request)]
                     empty_world))).
  - reflexivity.
  - reflexivity.
  - reflexivity.
Defined.

(** C9. [get_frauds] leaves the world as it found it, so a second call
    with no write in between returns, whenever it returns, the very same
    mapping; and it does return when the database is reachable. *)
Theorem get_frauds_idempotent (env1 env2 : DbEnv) (w w1 : World)
  (r1 : TransactionsAPIResponse) :
  FraudsService.get_frauds env1 w = (w1, Ok r1) ->
  w1 = w
  /\ (db_up env2 = true -> FraudsService.get_frauds env2 w1 = (w1, Ok r1))
  /\ forall (w2 : World) (r2 : TransactionsAPIResponse),
       FraudsService.get_frauds env2 w1 = (w2, Ok r2) -> w2 = w /\ r2 = r1.
Proof.
  intros E1.
  destruct (db_up env1) eqn:Hup1.
  - rewrite (get_frauds_up env1 w Hup1) in E1.
    injection E1 as <- Hres.
    split; [reflexivity|]. split.
    + intros Hup2. rewrite (get_frauds_up env2 w Hup2). now rewrite Hres.
    + intros w2 r2. destruct (db_up env2) eqn:Hup2.
      * rewrite (get_frauds_up env2 w Hup2), Hres.
        intros E2. injection E2 as <- <-. auto.
      * rewrite (get_frauds_down env2 w Hup2). discriminate.
  - rewrite (get_frauds_down env1 w Hup1) in E1. discriminate.
Qed.

(** C10. On a table that respects the primary key, the mapping returned by
    [get_frauds] enumerates its items in the order [list_all] returned the
    records, which is newest first: item by item, the key is the record's
    id and the value is the record's transaction and flag. *)
Theorem get_frauds_keeps_listing_order (env : DbEnv) (w w' : World)
  (resp : TransactionsAPIResponse) :
  pk_ok (db w) ->
  FraudsService.get_frauds env w = (w', Ok resp) ->
  exists rows,
    FraudRepository.list_all env (db w) = (db w, Ok (map load rows))
    /\ StronglySorted not_older rows
    /\ transactions resp
       = map (fun r => (row_id r, FraudsService.response_of (load r))) rows.
Proof.
  intros Hpk E.
  destruct (db_up env) eqn:Hup.
  - rewrite (get_frauds_ok env w Hup Hpk) in E. injection E as _ <-.
    exists (order_by_predicted_at_desc (table (db w))).
    unfold FraudRepository.list_all. rewrite Hup. simpl.
    split; [reflexivity|]. split; [apply order_by_sorted | reflexivity].
  - rewrite (get_frauds_down env w Hup) in E. discriminate.
Qed.

Lemma get_frauds_idempotent_witness :
  sample_world = sample_world
  /\ (db_up (up_at 60) = true ->
      FraudsService.get_frauds (up_at 60) sample_world
      = (sample_world, Ok (listing_of sample_world)))
  /\ forall (w2 : World) (r2 : TransactionsAPIResponse),
       FraudsService.get_frauds (up_at 60) sample_world = (w2, Ok r2) ->
       w2 = sample_world /\ r2 = listing_of sample_world.
Proof.
  apply (get_frauds_idempotent (up_at 50) (up_at 60) sample_world).
  reflexivity.
Defined.

Lemma get_frauds_keeps_listing_order_witness :
  exists rows,
    FraudRepository.list_all (up_at 50) (db sample_world)
    = (db sample_world, Ok (map load rows))
    /\ StronglySorted not_older rows
    /\ transactions (listing_of sample_world)
       = map (fun r => (row_id r, FraudsService.response_of (load r))) rows.
Proof.
  apply (get_frauds_keeps_listing_order (up_at 50) sample_world sample_world).
  - unfold pk_ok. simpl.
    repeat constructor; simpl; intros H; decompose [or] H; lia.
  - reflexivity.
Defined.

(** * Feature projection *)

Lemma dict_keys_NoDup (txn : Transaction) : NoDup (PyDict.keys (dict txn)).
Proof.
  unfold PyDict.keys. simpl.
  repeat constructor; simpl; intros H; decompose [or] H;
    discriminate || contradiction.
Qed.

Lemma prepare_dataframe_row (svc : FraudsService.t) (txn : Transaction) :
  FraudsService.prepare_dataframe svc txn
  = {| pd.columns := FraudsService.feature_cols svc;
       pd.data := [pd.row_of (FraudsService.feature_cols svc) (dict txn)] |}.
Proof. reflexivity. Qed.

Lemma row_of_covered (record : list (string * value)) (cols : list string) :
  (forall c, In c cols -> PyDict.get string_dec record c <> None) ->
  Forall2 (fun c v => PyDict.get string_dec record c = Some v)
    cols (pd.row_of cols record).
Proof.
  unfold pd.row_of.
  induction cols as [|c cols IH]; intros Hcover; cbn [map]; constructor.
  - unfold pd.cell.
    destruct (PyDict.get string_dec record c) eqn:E; [reflexivity|].
    exfalso. apply (Hcover c); [now left | exact E].
  - apply IH. intros c' Hc'. apply Hcover. now right.
Qed.

(** C8. When every feature column is a field of the transaction, the data
    frame has one row; position by position, the row holds the value the
    transaction has under the column name at that position of
    [feature_cols]; and listing the transaction's fields in another order
    gives the same row. *)
Theorem projection_follows_feature_cols (svc : FraudsService.t)
  (txn : Transaction) :
  (forall c, In c (FraudsService.feature_cols svc) ->
             PyDict.get string_dec (dict txn) c <> None) ->
  exists row,
    pd.data (FraudsService.prepare_dataframe svc txn) = [row]
    /\ pd.columns (FraudsService.prepare_dataframe svc txn)
       = FraudsService.feature_cols svc
    /\ Forall2 (fun c v => PyDict.get string_dec (dict txn) c = Some v)
         (FraudsService.feature_cols svc) row
    /\ forall fields,
         Permutation fields (dict txn) ->
         pd.row_of (FraudsService.feature_cols svc) fields = row.
Proof.
  intros Hcover. rewrite prepare_dataframe_row. cbn [pd.data pd.columns].
  eexists. split; [reflexivity|]. split; [reflexivity|]. split.
  - now apply row_of_covered.
  - intros fields HP. unfold pd.row_of. apply map_ext. intros c.
    unfold pd.cell. rewrite (get_perm string_dec (dict txn) fields c).
    + reflexivity.
    + apply dict_keys_NoDup.
    + now apply Permutation_sym.
Qed.

Lemma projection_follows_feature_cols_witness :
  exists row,
    pd.data (FraudsService.prepare_dataframe
               (constant_model [VInt 0] ["dst_bal"; "amount"; "time_ind"])
               sample_txn) = [row]
    /\ pd.columns (FraudsService.prepare_dataframe
                     (constant_model [VInt 0] ["dst_bal"; "amount"; "time_ind"])
                     sample_txn)
       = ["dst_bal"; "amount"; "time_ind"]
    /\ Forall2 (fun c v => PyDict.get string_dec (dict sample_txn) c = Some v)
         ["dst_bal"; "amount"; "time_ind"] row
    /\ forall fields,
         Permutation fields (dict sample_txn) ->
         pd.row_of ["dst_bal"; "amount"; "time_ind"] fields = row.
Proof.
  apply (projection_follows_feature_cols
           (constant_model [VInt 0] ["dst_bal"; "amount"; "time_ind"])
           sample_txn).
  simpl. intros c H. decompose [or] H; subst; try contradiction;
    vm_compute; discriminate.
Defined.

(** C2, as stated, fails: with feature columns "amount" and "merchant", of
    which the second is no field of a transaction, [predict] raises
    nothing; the model is called with NaN in the second cell and the
    prediction is stored and returned. *)
Lemma missing_column_not_rejected :
  In "merchant"
    (FraudsService.feature_cols (constant_model [VInt 0] ["amount"; "merchant"]))
  /\ PyDict.get string_dec (dict sample_txn) "merchant" = None
  /\ FraudsService.predict (constant_model [VInt 0] ["amount"; "merchant"])
       (up_at 7) sample_request empty_world
     = ({| db := {| table := [mkRow 1 sample_txn false 7]; id_seq := 1 |};
           model_calls :=
             [ {| pd.columns := ["amount"; "merchant"];
                  pd.data := [[VFloat 1234.56; NaN]] |} ] |},
        Ok {| transaction := sample_txn; predicted_fraud := false |}).
Proof.
  split; [simpl; auto|]. split; reflexivity.
Qed.

Lemma row_of_by_name (record : list (string * value)) (cols : list string) :
  Forall2 (fun c v => v = match PyDict.get string_dec record c with
                          | Some x => x
                          | None => NaN
                          end)
    cols (pd.row_of cols record).
Proof.
  unfold pd.row_of.
  induction cols as [|c cols IH]; cbn [map]; constructor;
    [reflexivity | exact IH].
Qed.

(** C2, amended. A feature column that is no field of the transaction
    does not make the projection fail: the data frame still has one row,
    as long as [feature_cols]; position by position, a cell holds the
    transaction's value under that position's column name when the
    transaction has such a field, and NaN when it has not, so NaN stands
    at every position of the missing column; and [predict] calls the
    model with that frame. *)
Theorem missing_column_yields_nan (svc : FraudsService.t) (txn : Transaction)
  (col : string) :
  In col (FraudsService.feature_cols svc) ->
  PyDict.get string_dec (dict txn) col = None ->
  exists row,
    pd.data (FraudsService.prepare_dataframe svc txn) = [row]
    /\ Forall2 (fun c v => v = match PyDict.get string_dec (dict txn) c with
                               | Some x => x
                               | None => NaN
                               end)
         (FraudsService.feature_cols svc) row
    /\ List.length row = List.length (FraudsService.feature_cols svc)
    /\ In NaN row
    /\ (forall n, nth_error (FraudsService.feature_cols svc) n = Some col ->
                  nth_error row n = Some NaN)
    /\ forall env w,
         model_calls
           (fst (FraudsService.predict svc env (mkRequest txn) w))
         = model_calls w ++ [FraudsService.prepare_dataframe svc txn].
Proof.
  intros HIn Hmiss. rewrite prepare_dataframe_row. cbn [pd.data].
  assert (Hcell : pd.cell (dict txn) col = NaN).
  { unfold pd.cell. now rewrite Hmiss. }
  eexists. split; [reflexivity|].
  split; [apply row_of_by_name|].
  unfold pd.row_of. repeat split.
  - apply length_map.
  - rewrite <- Hcell. now apply in_map.
  - intros n Hn. rewrite nth_error_map, Hn. simpl. now rewrite Hcell.
  - intros env w. apply predict_model_calls.
Qed.

Lemma missing_column_yields_nan_witness :
  exists row,
    pd.data (FraudsService.prepare_dataframe
               (constant_model [VInt 0] ["amount"; "merchant"]) sample_txn)
    = [row]
    /\ Forall2 (fun c v => v = match PyDict.get string_dec (dict sample_txn) c
                               with
                               | Some x => x
                               | None => NaN
                               end)
         ["amount"; "merchant"] row
    /\ List.length row = List.length ["amount"; "merchant"]
    /\ In NaN row
    /\ (forall n, nth_error ["amount"; "merchant"] n = Some "merchant" ->
                  nth_error row n = Some NaN)
    /\ forall env w,
         model_calls
           (fst (FraudsService.predict
                   (constant_model [VInt 0] ["amount"; "merchant"]) env
                   (mkRequest sample_txn) w))
         = model_calls w
           ++ [FraudsService.prepare_dataframe
                 (constant_model [VInt 0] ["amount"; "merchant"]) sample_txn].
Proof.
  apply (missing_column_yields_nan
           (constant_model [VInt 0] ["amount"; "merchant"]) sample_txn
           "merchant").
  - simpl. auto.
  - reflexivity.
Defined.

(** * Inference *)

(** C7, as stated, fails for an answer of unexpected length: a model that
    answers the one-row frame with two labels is not rejected; [predict]
    takes the first label, stores the prediction and returns. *)
Lemma two_labels_for_one_row_accepted :
  List.length
    (pd.data (FraudsService.prepare_dataframe
                (constant_model [VInt 1; VInt 0] numeric_cols) sample_txn))
  = 1%nat
  /\ FraudsService.model (constant_model [VInt 1; VInt 0] numeric_cols)
       (FraudsService.prepare_dataframe
          (constant_model [VInt 1; VInt 0] numeric_cols) sample_txn)
     = Ok [VInt 1; VInt 0]
  /\ FraudsService.predict (constant_model [VInt 1; VInt 0] numeric_cols)
       (up_at 7) sample_request empty_world
     = ({| db := {| table := [mkRow 1 sample_txn true 7]; id_seq := 1 |};
           model_calls :=
             [FraudsService.prepare_dataframe
                (constant_model [VInt 1; VInt 0] numeric_cols) sample_txn] |},
        Ok {| transaction := sample_txn; predicted_fraud := true |}).
Proof.
  repeat split.
Qed.

(** C7, amended. When the model raises, or answers with an empty array,
    [predict] fails with the model's exception, respectively with the
    [IndexError] of indexing the empty answer: the model has been called
    exactly once, the database is as it was, and no response is built.
    A one-dimensional answer of scalars with one label or more is not
    refused, however many labels it holds: the truth value of its first
    element is the label that goes to [add], and the outcome of
    [predict] is then the outcome of that [add]. *)
Theorem inference_failure_is_fatal (svc : FraudsService.t) (env : DbEnv)
  (req : TransactionAPIRequest) (w : World) :
  let txn := request_transaction req in
  let df := FraudsService.prepare_dataframe svc txn in
  (forall e,
     FraudsService.model svc df = Err e
     \/ (FraudsService.model svc df = Ok [] /\ e = IndexError) ->
     exists w',
       FraudsService.predict svc env req w = (w', Err e)
       /\ db w' = db w
       /\ model_calls w' = model_calls w ++ [df])
  /\ (forall v rest,
        FraudsService.model svc df = Ok (v :: rest) ->
        exists st r w',
          FraudRepository.add env (new_record txn (truthy v)) (db w) = (st, r)
          /\ FraudsService.predict svc env req w
             = (w', match r with
                    | Ok _ => Ok {| transaction := txn;
                                    predicted_fraud := truthy v |}
                    | Err e => Err e
                    end)
          /\ db w' = st
          /\ model_calls w' = model_calls w ++ [df]).
Proof.
  intros txn df. rewrite predict_cases. fold txn. fold df. split.
  - intros e [-> | [-> ->]]; exists (called w df); repeat split.
  - intros v rest ->.
    destruct (FraudRepository.add env (new_record txn (truthy v)) (db w))
      as [st [rec'|e]]; do 3 eexists; repeat split.
Qed.

Lemma inference_failure_is_fatal_witness :
  exists w',
    FraudsService.predict (raising_model "boom" numeric_cols)
      (up_at 7) sample_request sample_world
    = (w', Err (ModelError "boom"))
    /\ db w' = db sample_world
    /\ model_calls w'
       = model_calls sample_world
         ++ [FraudsService.prepare_dataframe
               (raising_model "boom" numeric_cols)
               (request_transaction sample_request)].
Proof.
  apply (proj1 (inference_failure_is_fatal (raising_model "boom" numeric_cols)
                  (up_at 7) sample_request sample_world)
           (ModelError "boom")).
  left. reflexivity.
Defined.

Example empty_answer_raises_IndexError :
  FraudsService.predict (constant_model [] numeric_cols)
    (up_at 7) sample_request sample_world
  = (called sample_world
       (FraudsService.prepare_dataframe (constant_model [] numeric_cols)
          sample_txn),
     Err IndexError).
Proof. reflexivity. Qed.

(** * Reachable stores *)

Lemma empty_store_ok : pk_ok empty_store /\ seq_ok empty_store.
Proof. split; constructor. Qed.

(** * Further properties of the repository *)

(** X3. Whatever record [add] is given and however the call ends, a table
    without duplicate ids is left without duplicate ids. *)
Theorem add_keeps_primary_key (env : DbEnv) (rec : TransactionRecord)
  (st : Store) :
  pk_ok st -> pk_ok (fst (FraudRepository.add env rec st)).
Proof.
  intros Hpk.
  destruct (FraudRepository.add env rec st) as [st' res] eqn:E.
  exact (add_pk_ok env rec st st' res Hpk E).
Qed.

Lemma add_keeps_primary_key_witness :
  pk_ok (fst (FraudRepository.add (up_at 40)
                {| id := Some 9; base := sample_txn; is_fraud := true;
                   predicted_at := Some 5 |}
                (db sample_world))).
Proof.
  apply (add_keeps_primary_key (up_at 40) _ (db sample_world)).
  unfold pk_ok. simpl.
  repeat constructor; simpl; intros H; decompose [or] H; lia.
Defined.




(** * Further properties of the service *)

Lemma StronglySorted_snoc (l : list Z) (x : Z) :
  StronglySorted Z.lt l -> Forall (fun y => y < x) l ->
  StronglySorted Z.lt (l ++ [x]).
Proof.
  induction 1 as [|y l HS IH HF]; simpl; intros Hlt.
  - repeat constructor.
  - inversion Hlt as [|? ? Hy Hl]; subst.
    constructor; [now apply IH|].
    apply Forall_app. split; [exact HF | now repeat constructor].
Qed.

(** One [predict] on a store filled through [predict]: ids stay strictly
    increasing in insertion order, positive and below the sequence, and
    the sequence advances by at most one. *)
Lemma predict_ids (svc : FraudsService.t) (env : DbEnv)
  (req : TransactionAPIRequest) (w : World) :
  let w' := fst (FraudsService.predict svc env req w) in
  seq_ok (db w) ->
  StronglySorted Z.lt (map row_id (table (db w))) ->
  Forall (fun r => 1 <= row_id r) (table (db w)) ->
  0 <= id_seq (db w) ->
  seq_ok (db w')
  /\ StronglySorted Z.lt (map row_id (table (db w')))
  /\ Forall (fun r => 1 <= row_id r) (table (db w'))
  /\ id_seq (db w) <= id_seq (db w') <= id_seq (db w) + 1.
Proof.
  intros w' Hseq Hsorted Hpos Hnn. subst w'. rewrite predict_cases. cbv zeta.
  destruct (FraudsService.model svc _) as [[|v arr]|e];
    [simpl; repeat split; (assumption || lia) |
    | simpl; repeat split; (assumption || lia)].
  rewrite add_new_record, (seq_ok_fresh _ Hseq).
  destruct (db_up env); simpl.
  - assert (Hgoal :
      seq_ok {| table := table (db w)
                         ++ [inserted_row env (db w) (request_transaction req)
                               (truthy v)];
                id_seq := id_seq (db w) + 1 |}
      /\ StronglySorted Z.lt
           (map row_id
              (table (db w)
               ++ [inserted_row env (db w) (request_transaction req)
                     (truthy v)]))
      /\ Forall (fun r => 1 <= row_id r)
           (table (db w)
            ++ [inserted_row env (db w) (request_transaction req)
                  (truthy v)])).
    { unfold seq_ok in *. simpl. repeat split.
      - apply Forall_app. split.
        + eapply Forall_impl; [|exact Hseq]. simpl. intros; lia.
        + repeat constructor. simpl. lia.
      - rewrite map_app. simpl. apply StronglySorted_snoc; [exact Hsorted|].
        rewrite Forall_map. eapply Forall_impl; [|exact Hseq].
        simpl. intros; lia.
      - apply Forall_app. split; [exact Hpos|].
        repeat constructor. simpl. lia. }
    destruct Hgoal as [H1 [H2 H3]].
    destruct (refresh_up env); simpl; repeat split; (assumption || lia).
  - repeat split; (assumption || lia).
Qed.

Lemma predict_all_ids (svc : FraudsService.t)
  (calls : list (DbEnv * TransactionAPIRequest)) :
  forall w : World,
    let w' := fst (predict_all svc calls w) in
    seq_ok (db w) ->
    StronglySorted Z.lt (map row_id (table (db w))) ->
    Forall (fun r => 1 <= row_id r) (table (db w)) ->
    0 <= id_seq (db w) ->
    seq_ok (db w')
    /\ StronglySorted Z.lt (map row_id (table (db w')))
    /\ Forall (fun r => 1 <= row_id r) (table (db w'))
    /\ id_seq (db w') <= id_seq (db w) + Z.of_nat (List.length calls).
Proof.
  induction calls as [|[env req] calls IH]; intros w w' Hseq Hs Hpos Hnn;
    subst w'.
  - simpl. repeat split; (assumption || lia).
  - cbn [predict_all].
    pose proof (predict_ids svc env req w Hseq Hs Hpos Hnn) as Hstep.
    destruct (FraudsService.predict svc env req w) as [w1 r] eqn:E1.
    simpl in Hstep. destruct Hstep as [Hseq1 [Hs1 [Hpos1 Hid1]]].
    assert (Hnn1 : 0 <= id_seq (db w1)) by lia.
    pose proof (IH w1 Hseq1 Hs1 Hpos1 Hnn1) as Hrest.
    destruct (predict_all svc calls w1) as [w2 rs] eqn:E2.
    simpl in Hrest |- *. destruct Hrest as [Hseq2 [Hs2 [Hpos2 Hid2]]].
    repeat split; (assumption || lia).
Qed.

(** X5. Starting from the empty store, whatever the calls of [predict]
    and however each ends, the ids in the table are strictly increasing in
    insertion order, and every id lies between 1 and the number of calls
    made. *)
Theorem predict_ids_ascending (svc : FraudsService.t)
  (calls : list (DbEnv * TransactionAPIRequest)) :
  let w' := fst (predict_all svc calls empty_world) in
  StronglySorted Z.lt (map row_id (table (db w')))
  /\ Forall (fun r => 1 <= row_id r <= Z.of_nat (List.length calls))
       (table (db w')).
Proof.
  intros w'.
  destruct (predict_all_ids svc calls empty_world)
    as [Hseq [Hs [Hpos Hid]]]; try (constructor; fail); simpl; try lia.
  fold w' in Hseq, Hs, Hpos, Hid. split; [exact Hs|].
  unfold seq_ok in Hseq. simpl in Hid.
  rewrite Forall_forall in *. intros r Hr.
  specialize (Hseq r Hr). specialize (Hpos r Hr). lia.
Qed.

(** The rows one [predict] adds: none or one, and one when it succeeds. *)
Lemma predict_appends (svc : FraudsService.t) (env : DbEnv)
  (req : TransactionAPIRequest) (w : World) :
  exists new,
    table (db (fst (FraudsService.predict svc env req w)))
    = table (db w) ++ new
    /\ (List.length new <= 1)%nat
    /\ (is_ok (snd (FraudsService.predict svc env req w)) = true ->
        List.length new = 1%nat).
Proof.
  rewrite predict_cases. cbv zeta.
  destruct (FraudsService.model svc _) as [[|v arr]|e];
    [exists []; simpl; rewrite app_nil_r; repeat split; (lia || discriminate) |
    | exists []; simpl; rewrite app_nil_r; repeat split; (lia || discriminate)].
  rewrite add_new_record.
  destruct (negb (db_up env));
    [exists []; simpl; rewrite app_nil_r; repeat split; (lia || discriminate)|].
  destruct (has_id _ _);
    [exists []; simpl; rewrite app_nil_r; repeat split; (lia || discriminate)|].
  eexists [_].
  destruct (negb (refresh_up env)); simpl; repeat split; lia.
Qed.

(** X6. The service never updates or deletes: after any run of [predict]
    calls the rows that were stored before are still there, in place,
    followed by the new ones; and the number of new rows is at least the
    number of calls that succeeded and at most the number of calls. *)
Theorem predict_all_append_only (svc : FraudsService.t)
  (calls : list (DbEnv * TransactionAPIRequest)) :
  forall w : World,
  exists new,
    table (db (fst (predict_all svc calls w))) = table (db w) ++ new
    /\ (List.length (filter is_ok (snd (predict_all svc calls w)))
        <= List.length new <= List.length calls)%nat.
Proof.
  induction calls as [|[env req] calls IH]; intros w.
  - exists []. simpl. rewrite app_nil_r. split; [reflexivity | lia].
  - cbn [predict_all].
    destruct (predict_appends svc env req w) as [new1 [Ht1 [Hle1 Hok1]]].
    destruct (FraudsService.predict svc env req w) as [w1 r] eqn:E1.
    destruct (IH w1) as [new2 [Ht2 Hlen2]].
    destruct (predict_all svc calls w1) as [w2 rs] eqn:E2.
    simpl in *. exists (new1 ++ new2). split.
    + now rewrite Ht2, Ht1, app_assoc.
    + rewrite length_app. destruct (is_ok r); simpl.
      * specialize (Hok1 eq_refl). lia.
      * lia.
Qed.

(** X7. The model is called exactly once per call of [predict], in call
    order and with the frame of that call's transaction, whether or not
    the call succeeds. *)
Theorem predict_all_model_calls (svc : FraudsService.t)
  (calls : list (DbEnv * TransactionAPIRequest)) :
  forall w : World,
    model_calls (fst (predict_all svc calls w))
    = model_calls w
      ++ map (fun c => FraudsService.prepare_dataframe svc
                         (request_transaction (snd c))) calls.
Proof.
  induction calls as [|[env req] calls IH]; intros w.
  - simpl. now rewrite app_nil_r.
  - cbn [predict_all].
    pose proof (predict_model_calls svc env req w) as H1.
    destruct (FraudsService.predict svc env req w) as [w1 r] eqn:E1.
    specialize (IH w1).
    destruct (predict_all svc calls w1) as [w2 rs] eqn:E2.
    simpl in *. now rewrite IH, H1, <- app_assoc.
Qed.

(** * Further properties of retrieval *)

(** Looking an id up in the mapping built from a table without duplicate
    ids finds exactly the row with that id. *)
Lemma listing_lookup (w : World) (k : Z) (v : TransactionAPIResponse) :
  pk_ok (db w) ->
  (PyDict.get Z.eq_dec (transactions (listing_of w)) k = Some v
   <-> exists r, In r (table (db w)) /\ row_id r = k
                 /\ v = FraudsService.response_of (load r)).
Proof.
  intros Hpk. unfold listing_of. cbn [transactions].
  rewrite get_In.
  - rewrite in_map_iff. split.
    + intros [r [E Hr]]. injection E as <- <-. exists r.
      split; [|split; reflexivity].
      eapply Permutation_in; [apply order_by_perm | exact Hr].
    + intros [r [Hr [<- ->]]]. exists r. split; [reflexivity|].
      eapply Permutation_in; [apply Permutation_sym, order_by_perm | exact Hr].
  - unfold PyDict.keys. rewrite map_map. simpl.
    eapply Permutation_NoDup; [|exact Hpk].
    apply Permutation_map, Permutation_sym, order_by_perm.
Qed.

Lemma listing_lookup_None (w : World) (k : Z) :
  ~ In k (map row_id (table (db w))) ->
  PyDict.get Z.eq_dec (transactions (listing_of w)) k = None.
Proof.
  intros Hnotin. apply get_None. intros HIn. apply Hnotin.
  unfold listing_of, PyDict.keys in HIn. cbn [transactions] in HIn.
  rewrite map_map in HIn. simpl in HIn.
  eapply Permutation_in; [|exact HIn].
  apply Permutation_map, order_by_perm.
Qed.

(** X8. Lookup by id: on a table without duplicate ids, the mapping that
    [get_frauds] returns holds, under the id of every stored row, that
    row's transaction and flag, and holds nothing under any other key. *)
Theorem get_frauds_lookup (env : DbEnv) (w : World) :
  db_up env = true ->
  pk_ok (db w) ->
  exists resp,
    FraudsService.get_frauds env w = (w, Ok resp)
    /\ (forall r, In r (table (db w)) ->
          PyDict.get Z.eq_dec (transactions resp) (row_id r)
          = Some {| transaction := row_txn r;
                    predicted_fraud := row_is_fraud r |})
    /\ (forall k, ~ In k (map row_id (table (db w))) ->
          PyDict.get Z.eq_dec (transactions resp) k = None).
Proof.
  intros Hup Hpk. exists (listing_of w).
  split; [apply (get_frauds_ok env w Hup Hpk)|]. split.
  - intros r Hr. apply (listing_lookup w (row_id r) _ Hpk).
    exists r. repeat split. exact Hr.
  - intros k. apply listing_lookup_None.
Qed.

Lemma get_frauds_lookup_witness :
  exists resp,
    FraudsService.get_frauds (up_at 50) sample_world = (sample_world, Ok resp)
    /\ (forall r, In r (table (db sample_world)) ->
          PyDict.get Z.eq_dec (transactions resp) (row_id r)
          = Some {| transaction := row_txn r;
                    predicted_fraud := row_is_fraud r |})
    /\ (forall k, ~ In k (map row_id (table (db sample_world))) ->
          PyDict.get Z.eq_dec (transactions resp) k = None).
Proof.
  apply (get_frauds_lookup (up_at 50) sample_world).
  - reflexivity.
  - unfold pk_ok. simpl.
    repeat constructor; simpl; intros H; decompose [or] H; lia.
Defined.

(** X9. What [predict] returns is what [get_frauds] shows: after a
    successful [predict] the mapping holds the returned response under an
    id that was not in the mapping before, and every item that was in the
    mapping before is still there, unchanged. *)
Theorem predict_then_get_frauds (svc : FraudsService.t) (env env' : DbEnv)
  (req : TransactionAPIRequest) (w w' : World)
  (resp : TransactionAPIResponse) :
  pk_ok (db w) ->
  FraudsService.predict svc env req w = (w', Ok resp) ->
  db_up env' = true ->
  exists before after i,
    FraudsService.get_frauds env' w = (w, Ok before)
    /\ FraudsService.get_frauds env' w' = (w', Ok after)
    /\ PyDict.get Z.eq_dec (transactions before) i = None
    /\ PyDict.get Z.eq_dec (transactions after) i = Some resp
    /\ (forall k v, PyDict.get Z.eq_dec (transactions before) k = Some v ->
                    PyDict.get Z.eq_dec (transactions after) k = Some v).
Proof.
  intros Hpk Hp Hup.
  assert (Hpk' : pk_ok (db w')).
  { now apply (predict_table _ _ _ _ _ _ Hp). }
  rewrite predict_cases in Hp. cbv zeta in Hp.
  destruct (FraudsService.model svc _) as [[|v arr]|e]; try discriminate.
  destruct (FraudRepository.add _ _ _) as [st [rec'|e]] eqn:Ha;
    try discriminate.
  injection Hp as Hw <-.
  assert (Hdb : db w' = st) by (now rewrite <- Hw).
  apply add_table in Ha.
  destruct Ha as [[r [Ht [Hfresh [Htxn [Hflag _]]]]] | [_ Hno]];
    [|discriminate].
  rewrite <- Hdb in Ht. simpl in Htxn, Hflag. clear Hw Hdb.
  exists (listing_of w), (listing_of w'), (row_id r).
  split; [apply (get_frauds_ok env' w Hup Hpk)|].
  split; [apply (get_frauds_ok env' w' Hup Hpk')|].
  split; [now apply listing_lookup_None|]. split.
  - apply listing_lookup; [exact Hpk'|]. exists r. rewrite Ht.
    split; [apply in_or_app; right; now left|]. split; [reflexivity|].
    unfold FraudsService.response_of, from_orm. simpl.
    now rewrite Htxn, Hflag.
  - intros k v0 Hk. apply listing_lookup in Hk; [|exact Hpk].
    apply listing_lookup; [exact Hpk'|].
    destruct Hk as [r0 [Hr0 [Hid Hv]]]. exists r0. rewrite Ht.
    split; [apply in_or_app; now left | now split].
Qed.

Lemma predict_then_get_frauds_witness :
  exists before after i,
    FraudsService.get_frauds (up_at 50) sample_world
    = (sample_world, Ok before)
    /\ FraudsService.get_frauds (up_at 50)
         (fst (FraudsService.predict (constant_model [VInt 1] numeric_cols)
                 (up_at 40) sample_request sample_world))
       = (fst (FraudsService.predict (constant_model [VInt 1] numeric_cols)
                 (up_at 40) sample_request sample_world), Ok after)
    /\ PyDict.get Z.eq_dec (transactions before) i = None
    /\ PyDict.get Z.eq_dec (transactions after) i
       = Some {| transaction := sample_txn; predicted_fraud := true |}
    /\ (forall k v, PyDict.get Z.eq_dec (transactions before) k = Some v ->
                    PyDict.get Z.eq_dec (transactions after) k = Some v).
Proof.
  apply (predict_then_get_frauds (constant_model [VInt 1] numeric_cols)
           (up_at 40) (up_at 50) sample_request sample_world).
  - unfold pk_ok. simpl.
    repeat constructor; simpl; intros H; decompose [or] H; lia.
  - reflexivity.
  - reflexivity.
Defined.

Lemma set_keys_Some (d : list (option Z * TransactionAPIResponse))
  (i : Z) (v : TransactionAPIResponse) :
  Forall (fun kv => fst kv <> None) d ->
  Forall (fun kv => fst kv <> None)
    (PyDict.set option_Z_eq_dec d (Some i) v).
Proof.
  induction 1 as [|[k' v'] d Hk HF IH]; cbn [PyDict.set].
  - repeat constructor. simpl. discriminate.
  - destruct (option_Z_eq_dec (Some i) k'); constructor; assumption.
Qed.

Lemma collect_keys_Some (rows : list Row) :
  Forall (fun kv => fst kv <> None)
    (FraudsService.collect (map load rows)).
Proof.
  unfold FraudsService.collect.
  assert (H : forall d, Forall (fun kv => fst kv <> None) d ->
            Forall (fun kv : option Z * TransactionAPIResponse =>
                      fst kv <> None)
              (fold_left
                 (fun result rec =>
                    PyDict.set option_Z_eq_dec result (id rec)
                      (FraudsService.response_of rec))
                 (map load rows) d)).
  { induction rows as [|r rows IH]; simpl; intros d Hd.
    - exact Hd.
    - apply IH. now apply set_keys_Some. }
  apply H. constructor.
Qed.

Lemma validate_keys_Some (d : list (option Z * TransactionAPIResponse)) :
  Forall (fun kv => fst kv <> None) d ->
  exists d', validate_transactions d = Ok d'.
Proof.
  induction 1 as [|[[i|] v] d Hk HF IH]; simpl.
  - now eexists.
  - destruct IH as [d' ->]. now eexists.
  - now destruct Hk.
Qed.

(** X10. [get_frauds] never writes and, on any table at all, fails in one
    way only: it returns a mapping when the database answers and raises
    [OperationalError] when it does not; the key check of the response
    never rejects what the loop has built. *)
Theorem get_frauds_total (env : DbEnv) (w : World) :
  (db_up env = true /\
   exists resp, FraudsService.get_frauds env w = (w, Ok resp))
  \/ (db_up env = false /\
      FraudsService.get_frauds env w = (w, Err OperationalError)).
Proof.
  destruct (db_up env) eqn:Hup.
  - left. split; [reflexivity|]. rewrite (get_frauds_up env w Hup).
    destruct (validate_keys_Some _
                (collect_keys_Some
                   (order_by_predicted_at_desc (table (db w))))) as [d ->].
    now eexists.
  - right. split; [reflexivity | now apply get_frauds_down].
Qed.

(** * Further properties of the feature frame *)

Lemma get_value_In (d : list (string * value)) (c : string) (v : value) :
  PyDict.get string_dec d c = Some v -> In v (map snd d).
Proof.
  induction d as [|[k' v'] d IH]; simpl; [discriminate|].
  destruct (string_dec c k').
  - intros E. injection E as ->. now left.
  - intros E. right. now apply IH.
Qed.

(** X11. A field that is not among the feature columns has no influence
    on the inference: two transactions that agree on every feature column
    give the same data frame, so the model is called with the same frame
    for both, and whenever [predict] returns for both, in whatever worlds,
    it returns the same label. *)
Theorem unlisted_fields_do_not_matter (svc : FraudsService.t)
  (txn txn' : Transaction) :
  (forall c, In c (FraudsService.feature_cols svc) ->
             PyDict.get string_dec (dict txn) c
             = PyDict.get string_dec (dict txn') c) ->
  FraudsService.prepare_dataframe svc txn
  = FraudsService.prepare_dataframe svc txn'
  /\ (forall env w,
        model_calls (fst (FraudsService.predict svc env (mkRequest txn') w))
        = model_calls w ++ [FraudsService.prepare_dataframe svc txn])
  /\ (forall env env' w w' w1 w1' resp resp',
        FraudsService.predict svc env (mkRequest txn) w = (w1, Ok resp) ->
        FraudsService.predict svc env' (mkRequest txn') w' = (w1', Ok resp') ->
        predicted_fraud resp = predicted_fraud resp').
Proof.
  intros Hagree.
  assert (Hdf : FraudsService.prepare_dataframe svc txn
                = FraudsService.prepare_dataframe svc txn').
  { rewrite !prepare_dataframe_row. f_equal. f_equal.
    unfold pd.row_of. apply map_ext_in. intros c Hc.
    unfold pd.cell. now rewrite (Hagree c Hc). }
  split; [exact Hdf|]. split.
  - intros env w. rewrite Hdf. apply predict_model_calls.
  - intros env env' w w' w1 w1' resp resp'.
    rewrite !predict_cases. cbv zeta. cbn [request_transaction].
    rewrite Hdf.
    destruct (FraudsService.model svc _) as [[|v arr]|e]; try discriminate.
    destruct (FraudRepository.add env _ (db w)) as [st [r|e]];
      try discriminate.
    destruct (FraudRepository.add env' _ (db w')) as [st' [r'|e']];
      try discriminate.
    intros E E'. injection E as _ <-. injection E' as _ <-. reflexivity.
Qed.

Lemma unlisted_fields_do_not_matter_witness :
  FraudsService.prepare_dataframe (constant_model [VInt 1] numeric_cols)
    sample_txn
  = FraudsService.prepare_dataframe (constant_model [VInt 1] numeric_cols)
      other_accounts_txn
  /\ (forall env w,
        model_calls
          (fst (FraudsService.predict (constant_model [VInt 1] numeric_cols)
                  env (mkRequest other_accounts_txn) w))
        = model_calls w
          ++ [FraudsService.prepare_dataframe
                (constant_model [VInt 1] numeric_cols) sample_txn])
  /\ (forall env env' w w' w1 w1' resp resp',
        FraudsService.predict (constant_model [VInt 1] numeric_cols) env
          (mkRequest sample_txn) w = (w1, Ok resp) ->
        FraudsService.predict (constant_model [VInt 1] numeric_cols) env'
          (mkRequest other_accounts_txn) w' = (w1', Ok resp') ->
        predicted_fraud resp = predicted_fraud resp').
Proof.
  apply (unlisted_fields_do_not_matter
           (constant_model [VInt 1] numeric_cols) sample_txn
           other_accounts_txn).
  simpl. intros c H. decompose [or] H; subst; try contradiction; reflexivity.
Defined.

(** X12. Whatever the transaction and the feature columns, the frame has
    exactly one row, with one cell per feature column, and every cell is
    either a field value of the transaction or NaN: the projection never
    fails and never invents a value. *)
Theorem dataframe_shape (svc : FraudsService.t) (txn : Transaction) :
  exists row,
    pd.data (FraudsService.prepare_dataframe svc txn) = [row]
    /\ pd.columns (FraudsService.prepare_dataframe svc txn)
       = FraudsService.feature_cols svc
    /\ List.length row = List.length (FraudsService.feature_cols svc)
    /\ Forall (fun v => v = NaN \/ In v (map snd (dict txn))) row.
Proof.
  rewrite prepare_dataframe_row. cbn [pd.data pd.columns].
  eexists. split; [reflexivity|]. split; [reflexivity|].
  unfold pd.row_of. split; [apply length_map|].
  rewrite Forall_map. apply Forall_forall. intros c _.
  unfold pd.cell.
  destruct (PyDict.get string_dec (dict txn) c) as [v|] eqn:E.
  - right. now apply (get_value_In (dict txn) c).
  - now left.
Qed.

(** The row behind a successful [predict]: it is in the table afterwards
    and its transaction and flag are the response's. *)
Lemma predict_persists_row (svc : FraudsService.t) (env : DbEnv)
  (req : TransactionAPIRequest) (w w' : World)
  (resp : TransactionAPIResponse) :
  FraudsService.predict svc env req w = (w', Ok resp) ->
  exists r, In r (table (db w'))
            /\ resp = FraudsService.response_of (load r).
Proof.
  rewrite predict_cases. cbv zeta.
  destruct (FraudsService.model svc _) as [[|v arr]|e]; try discriminate.
  destruct (FraudRepository.add _ _ _) as [st [rec'|e]] eqn:Ha;
    try discriminate.
  intros E. injection E as <- <-.
  apply add_table in Ha.
  destruct Ha as [[r [Ht [_ [Htxn [Hflag _]]]]] | [_ Hno]]; [|discriminate].
  exists r. simpl in *. rewrite Ht. split.
  - apply in_or_app. right. now left.
  - unfold FraudsService.response_of, from_orm. simpl.
    now rewrite Htxn, Hflag.
Qed.

(** * The controller and the routes *)

(** X13. A request that carries no client address is refused by both
    handlers with [AttributeError] before the service is reached: the
    model is not called and the database is not touched. *)
Theorem anonymous_request_rejected (svc : FraudsService.t) (env : DbEnv)
  (http_request : fastapi.Request) (request : TransactionAPIRequest)
  (response : fastapi.Response) (w : World) :
  fastapi.client http_request = None ->
  frauds_route.predict_fraudulent_transaction svc env http_request request
    response w
  = (w, fastapi.Raised fastapi.AttributeError)
  /\ frauds_route.get_fraudulent_transactions svc env http_request response w
     = (w, fastapi.Raised fastapi.AttributeError).
Proof.
  intros Hnone.
  unfold frauds_route.predict_fraudulent_transaction,
    frauds_route.get_fraudulent_transactions,
    FraudsController.predict, FraudsController.get_frauds.
  rewrite Hnone. split; reflexivity.
Qed.

Lemma anonymous_request_rejected_witness :
  frauds_route.predict_fraudulent_transaction
    (constant_model [VInt 1] numeric_cols) (up_at 40) anonymous_request
    sample_request fresh_response sample_world
  = (sample_world, fastapi.Raised fastapi.AttributeError)
  /\ frauds_route.get_fraudulent_transactions
       (constant_model [VInt 1] numeric_cols) (up_at 40) anonymous_request
       fresh_response sample_world
     = (sample_world, fastapi.Raised fastapi.AttributeError).
Proof.
  apply (anonymous_request_rejected (constant_model [VInt 1] numeric_cols)
           (up_at 40) anonymous_request sample_request fresh_response
           sample_world).
  reflexivity.
Defined.

(** X14. POST /predict adds nothing to what the service does.  Whenever
    it returns, the status code on the response is 200, the request
    carried a client address, and the body and the resulting world are
    exactly those of the service's [predict].  And for a request with a
    client address: a response of the service is returned as the body
    with status 200, an exception of the service leaves the route as it
    is, and either way the world is as the service left it. *)
Theorem predict_route_outcome (svc : FraudsService.t) (env : DbEnv)
  (http_request : fastapi.Request) (request : TransactionAPIRequest)
  (response : fastapi.Response) (w : World) :
  (forall w' r body,
     frauds_route.predict_fraudulent_transaction svc env http_request request
       response w = (w', fastapi.Returned (r, body)) ->
     fastapi.status_code r = Some 200
     /\ fastapi.client http_request <> None
     /\ FraudsService.predict svc env request w = (w', Ok body))
  /\ (forall w' body,
        fastapi.client http_request <> None ->
        FraudsService.predict svc env request w = (w', Ok body) ->
        frauds_route.predict_fraudulent_transaction svc env http_request
          request response w
        = (w', fastapi.Returned
                 ({| fastapi.status_code := Some 200 |}, body)))
  /\ (forall w' e,
        fastapi.client http_request <> None ->
        FraudsService.predict svc env request w = (w', Err e) ->
        frauds_route.predict_fraudulent_transaction svc env http_request
          request response w
        = (w', fastapi.Raised (fastapi.Propagated e))).
Proof.
  unfold frauds_route.predict_fraudulent_transaction,
    FraudsController.predict.
  destruct (fastapi.client http_request) as [a|].
  - split; [|split].
    + intros w' r body.
      destruct (FraudsService.predict svc env request w) as [w1 [b|e]];
        intros E; [|discriminate].
      injection E as <- <- <-. repeat split. discriminate.
    + intros w' body _ ->. reflexivity.
    + intros w' e _ ->. reflexivity.
  - split; [|split].
    + intros w' r body E. discriminate.
    + intros w' body Hc. now destruct Hc.
    + intros w' e Hc. now destruct Hc.
Qed.

Lemma predict_route_outcome_witness :
  fastapi.status_code {| fastapi.status_code := Some 200 |} = Some 200
  /\ fastapi.client sample_client <> None
  /\ FraudsService.predict (constant_model [VInt 1] numeric_cols)
       (up_at 40) sample_request sample_world
     = (fst (FraudsService.predict (constant_model [VInt 1] numeric_cols)
               (up_at 40) sample_request sample_world),
        Ok {| transaction := sample_txn; predicted_fraud := true |}).
Proof.
  apply (proj1 (predict_route_outcome (constant_model [VInt 1] numeric_cols)
                  (up_at 40) sample_client sample_request fresh_response
                  sample_world)
           _ {| fastapi.status_code := Some 200 |}
           {| transaction := sample_txn; predicted_fraud := true |}).
  reflexivity.
Defined.

(** X15. POST /predict followed by GET /frauds: when the POST returns a
    body, a GET that reaches the database, sent with a client address,
    returns with status 200 a mapping that holds that very body under one
    of its ids, and leaves the world as the POST left it. *)
Theorem post_then_get (svc : FraudsService.t) (env env' : DbEnv)
  (http_request http_request' : fastapi.Request)
  (request : TransactionAPIRequest) (response response' : fastapi.Response)
  (w w1 : World) (r1 : fastapi.Response) (body : TransactionAPIResponse) :
  pk_ok (db w) ->
  frauds_route.predict_fraudulent_transaction svc env http_request request
    response w = (w1, fastapi.Returned (r1, body)) ->
  db_up env' = true ->
  fastapi.client http_request' <> None ->
  exists listing i,
    frauds_route.get_fraudulent_transactions svc env' http_request' response'
      w1
    = (w1, fastapi.Returned ({| fastapi.status_code := Some 200 |}, listing))
    /\ PyDict.get Z.eq_dec (transactions listing) i = Some body.
Proof.
  intros Hpk Hpost Hup Hclient.
  unfold frauds_route.predict_fraudulent_transaction,
    FraudsController.predict in Hpost.
  destruct (fastapi.client http_request) as [a|]; [|discriminate].
  destruct (FraudsService.predict svc env request w) as [w0 [b|e]] eqn:Hp;
    [|discriminate].
  injection Hpost as <- _ <-.
  assert (Hpk1 : pk_ok (db w0)) by now apply (predict_table _ _ _ _ _ _ Hp).
  destruct (predict_persists_row svc env request w w0 b Hp) as [r [HIn Hb]].
  exists (listing_of w0), (row_id r). split.
  - unfold frauds_route.get_fraudulent_transactions,
      FraudsController.get_frauds.
    destruct (fastapi.client http_request') as [a'|]; [|now destruct Hclient].
    now rewrite (get_frauds_ok env' w0 Hup Hpk1).
  - apply listing_lookup; [exact Hpk1|]. exists r. now repeat split.
Qed.

Lemma post_then_get_witness :
  exists listing i,
    frauds_route.get_fraudulent_transactions
      (constant_model [VInt 1] numeric_cols) (up_at 50) sample_client
      fresh_response
      (fst (FraudsService.predict (constant_model [VInt 1] numeric_cols)
              (up_at 40) sample_request sample_world))
    = (fst (FraudsService.predict (constant_model [VInt 1] numeric_cols)
              (up_at 40) sample_request sample_world),
       fastapi.Returned ({| fastapi.status_code := Some 200 |}, listing))
    /\ PyDict.get Z.eq_dec (transactions listing) i
       = Some {| transaction := sample_txn; predicted_fraud := true |}.
Proof.
  apply (post_then_get (constant_model [VInt 1] numeric_cols)
           (up_at 40) (up_at 50) sample_client sample_client sample_request
           fresh_response fresh_response sample_world _
           {| fastapi.status_code := Some 200 |}).
  - unfold pk_ok. simpl.
    repeat constructor; simpl; intros H; decompose [or] H; lia.
  - reflexivity.
  - reflexivity.
  - discriminate.
Defined.

(** * The settings *)

Lemma string_append_assoc (a b c : string) :
  String.append (String.append a b) c = String.append a (String.append b c).
Proof.
  induction a as [|ch a IH]; simpl; [reflexivity | now rewrite IH].
Qed.

Lemma string_append_length (a b : string) :
  String.length (String.append a b)
  = (String.length a + String.length b)%nat.
Proof.
  induction a as [|ch a IH]; simpl; [reflexivity | now rewrite IH].
Qed.

(** X16. [DATABASE_URL] pastes the credentials in as they are: moving a
    colon-separated tail of the user name to the front of the password
    gives different settings with the same URL, so the URL does not
    determine the credentials it was built from. *)
Theorem DATABASE_URL_ambiguous (b : config.BasicSettings) (u a p : string) :
  let s1 := {| config.basic := b;
               config.secrets :=
                 {| config.DB_USER := String.append u (String.append ":" a);
                    config.DB_PASSWORD := p |} |} in
  let s2 := {| config.basic := b;
               config.secrets :=
                 {| config.DB_USER := u;
                    config.DB_PASSWORD :=
                      String.append a (String.append ":" p) |} |} in
  s1 <> s2 /\ config.DATABASE_URL s1 = config.DATABASE_URL s2.
Proof.
  intros s1 s2. split.
  - intros E. apply (f_equal (fun s => config.DB_USER (config.secrets s))) in E.
    simpl in E. apply (f_equal String.length) in E.
    rewrite string_append_length in E. simpl in E. lia.
  - unfold config.DATABASE_URL, s1, s2. cbn [config.secrets config.basic
      config.DB_USER config.DB_PASSWORD].
    f_equal. rewrite !string_append_assoc. reflexivity.
Qed.

(** X17. GET /frauds never changes the world and has exactly three
    outcomes: without a client address it raises [AttributeError]; with
    one, it raises [OperationalError] when the database does not answer
    and otherwise returns a mapping with status 200. *)
Theorem get_route_outcomes (svc : FraudsService.t) (env : DbEnv)
  (http_request : fastapi.Request) (response : fastapi.Response) (w : World) :
  (fastapi.client http_request = None /\
   frauds_route.get_fraudulent_transactions svc env http_request response w
   = (w, fastapi.Raised fastapi.AttributeError))
  \/ (fastapi.client http_request <> None /\ db_up env = false /\
      frauds_route.get_fraudulent_transactions svc env http_request response w
      = (w, fastapi.Raised (fastapi.Propagated OperationalError)))
  \/ (fastapi.client http_request <> None /\ db_up env = true /\
      exists listing,
        frauds_route.get_fraudulent_transactions svc env http_request
          response w
        = (w, fastapi.Returned
                ({| fastapi.status_code := Some 200 |}, listing))).
Proof.
  unfold frauds_route.get_fraudulent_transactions,
    FraudsController.get_frauds.
  destruct (fastapi.client http_request) as [a|].
  - right. destruct (db_up env) eqn:Hup.
    + right. split; [discriminate|]. split; [reflexivity|].
      rewrite (get_frauds_up env w Hup).
      destruct (validate_keys_Some _
                  (collect_keys_Some
                     (order_by_predicted_at_desc (table (db w))))) as [d ->].
      now eexists.
    + left. split; [discriminate|]. split; [reflexivity|].
      now rewrite (get_frauds_down env w Hup).
  - left. split; reflexivity.
Qed.
